(** * TDS Virtual TA: the forum scraper and the question-answering service

    A shallow embedding of [src/scraper.py] (class [DiscourseScraperTDS]) and
    [src/virtual_ta_main.py] (the FastAPI service), with the properties the
    specification states about them.

    Conventions of the embedding.
    - A Python [str] is a [string]: a sequence of characters below 128.
      [str.lower], [str.strip] and the whitespace tests are the ASCII ones.
    - A Python exception is a value [Raise e] of the [result] type; every
      [try: ... except Exception] of the source is a [match] on it.
    - Whatever the program receives from outside (the forum's HTTP responses,
      the language model's reply, the image library's verdict) is an explicit
      argument of the functions that use it. *)

From Stdlib Require Import ZArith Lia List Ascii String Bool.
From stdpp Require Import base option list strings gmap pretty.
From Equations Require Import Equations.

Import ListNotations.
Local Open Scope string_scope.
Local Open Scope list_scope.

(* ===================================================================== *)
(** ** Python exceptions *)
(* ===================================================================== *)

Inductive exn : Type :=
| KeyError | TypeError | AttributeError | ValueError | IndexError
| JSONDecodeError | RequestException | OpenAIError | ImageError.

Inductive result (A : Type) : Type :=
| Ok (a : A)
| Raise (e : exn).
Arguments Ok {A} a.
Arguments Raise {A} e.

Definition rbind {A B} (m : result A) (k : A -> result B) : result B :=
  match m with Ok a => k a | Raise e => Raise e end.

#[global] Instance result_ret : MRet result := fun _ a => Ok a.
#[global] Instance result_bind : MBind result := fun _ _ k m => rbind m k.

(* ===================================================================== *)
(** ** Python strings *)
(* ===================================================================== *)

Module PyStr.

Definition is_upper (c : ascii) : bool :=
  let n := nat_of_ascii c in (65 <=? n)%nat && (n <=? 90)%nat.

Definition lower_char (c : ascii) : ascii :=
  if is_upper c then ascii_of_nat (nat_of_ascii c + 32) else c.

(** [s.lower()] *)
Fixpoint lower (s : string) : string :=
  match s with
  | EmptyString => EmptyString
  | String c s' => String (lower_char c) (lower s')
  end.

(** [s.startswith(p)] *)
Fixpoint startswith (p s : string) : bool :=
  match p, s with
  | EmptyString, _ => true
  | String a p', String b s' => if Ascii.eqb a b then startswith p' s' else false
  | String _ _, EmptyString => false
  end.

(** [kw in s] on two strings: substring containment. *)
Fixpoint contains (kw s : string) : bool :=
  startswith kw s ||
  match s with
  | EmptyString => false
  | String _ s' => contains kw s'
  end.

(** [any(kw in s for kw in kws)] *)
Definition any_in (kws : list string) (s : string) : bool :=
  existsb (fun kw => contains kw s) kws.

(** [s[:n]] *)
Fixpoint take (n : nat) (s : string) : string :=
  match n, s with
  | S n', String c s' => String c (take n' s')
  | _, _ => EmptyString
  end.

(** Python's [str.isspace] on one character below 128. *)
Definition is_space (c : ascii) : bool :=
  let n := nat_of_ascii c in
  ((9 <=? n)%nat && (n <=? 13)%nat) || ((28 <=? n)%nat && (n <=? 32)%nat).

Fixpoint lstrip (s : string) : string :=
  match s with
  | EmptyString => EmptyString
  | String c s' => if is_space c then lstrip s' else s
  end.

(** [rstrip]: a character is kept when it is not a space or when something
    is kept after it. *)
Fixpoint rstrip (s : string) : string :=
  match s with
  | EmptyString => EmptyString
  | String c s' =>
      match rstrip s' with
      | EmptyString => if is_space c then EmptyString else String c EmptyString
      | r => String c r
      end
  end.

(** [s.strip()] *)
Definition strip (s : string) : string := rstrip (lstrip s).

(** Truth value of a string: [bool(s)]. *)
Definition truthy (s : string) : bool :=
  match s with EmptyString => false | _ => true end.

(** ["\n".join(parts)] and friends. *)
Fixpoint join (sep : string) (parts : list string) : string :=
  match parts with
  | [] => ""
  | [p] => p
  | p :: rest => p +:+ sep +:+ join sep rest
  end.

End PyStr.

(* ===================================================================== *)
(** ** Python dicts with string keys and string values

    Every item of [TDS_KNOWLEDGE_BASE] is such a dict, and the service
    passes nothing else around as a "matched item". *)
(* ===================================================================== *)

Abbreviation item := (gmap string string).

Module PyDict.

(** [d[k]] *)
Definition getitem (d : item) (k : string) : result string :=
  match d !! k with Some v => Ok v | None => Raise KeyError end.

(** [d.get(k, default)] *)
Definition get (d : item) (k : string) (default : string) : string :=
  match d !! k with Some v => v | None => default end.

(** [k in d] *)
Definition mem (k : string) (d : item) : bool :=
  match d !! k with Some _ => true | None => false end.

End PyDict.

(* ===================================================================== *)
(** ** The knowledge store ([TDS_KNOWLEDGE_BASE]) *)
(* ===================================================================== *)

Record knowledge_base : Type := {
  course_content : list item;
  discourse_posts : list item
}.

Definition course_item_1 : item :=
  list_to_map [
    ("topic", "AI Models and APIs");
    ("content", "For TDS assignments, you must use gpt-3.5-turbo-0125 model specifically, even if AI Proxy supports other models like gpt-4o-mini. Use OpenAI API directly when required.");
    ("source", "Course Guidelines")].

Definition course_item_2 : item :=
  list_to_map [
    ("topic", "Data Collection");
    ("content", "Web scraping should be done ethically with proper rate limiting. Use libraries like requests, BeautifulSoup, and selenium when needed.");
    ("source", "Week 3 Materials")].

Definition course_item_3 : item :=
  list_to_map [
    ("topic", "API Development");
    ("content", "FastAPI is recommended for building REST APIs. Ensure proper error handling and response formatting.");
    ("source", "Week 5 Materials")].

Definition discourse_item_1 : item :=
  list_to_map [
    ("url", "https://discourse.onlinedegree.iitm.ac.in/t/ga5-question-8-clarification/155939/4");
    ("title", "GA5 Question 8 Clarification");
    ("content", "Use the model that's mentioned in the question. For token counting, use the specified model's tokenizer.");
    ("date", "2025-04-10")].

Definition discourse_item_2 : item :=
  list_to_map [
    ("url", "https://discourse.onlinedegree.iitm.ac.in/t/api-best-practices/155940/2");
    ("title", "API Best Practices");
    ("content", "Always implement proper error handling and return appropriate HTTP status codes.");
    ("date", "2025-04-08")].

Definition TDS_KNOWLEDGE_BASE : knowledge_base := {|
  course_content := [course_item_1; course_item_2; course_item_3];
  discourse_posts := [discourse_item_1; discourse_item_2]
|}.

(* ===================================================================== *)
(** ** Relevance matcher ([search_knowledge_base]) *)
(* ===================================================================== *)

Definition course_question_keywords : list string :=
  ["api"; "model"; "gpt"; "openai"; "scraping"; "fastapi"].
Definition course_content_keywords : list string :=
  ["api"; "model"; "gpt"; "openai"; "scraping"; "fastapi"].
Definition discourse_question_keywords : list string :=
  ["question"; "clarification"; "api"; "model"].
Definition discourse_content_keywords : list string :=
  ["model"; "api"; "token"; "question"].

(** One [for] loop of [search_knowledge_base]: [relevant_items] is threaded
    through as the accumulator; [item["content"]] is only looked up when the
    question side matched, as the nested [if] has it. *)
Fixpoint search_loop (question_kws content_kws : list string)
    (question_lower : string) (collection : list item)
    (relevant_items : list item) : result (list item) :=
  match collection with
  | [] => Ok relevant_items
  | it :: rest =>
      if PyStr.any_in question_kws question_lower then
        content ← PyDict.getitem it "content";
        if PyStr.any_in content_kws (PyStr.lower content) then
          search_loop question_kws content_kws question_lower rest
            (relevant_items ++ [it])
        else
          search_loop question_kws content_kws question_lower rest relevant_items
      else
        search_loop question_kws content_kws question_lower rest relevant_items
  end.

Definition search_in (kb : knowledge_base) (question : string)
  : result (list item) :=
  let question_lower := PyStr.lower question in
  relevant_items ←
    search_loop course_question_keywords course_content_keywords
      question_lower (course_content kb) [];
  search_loop discourse_question_keywords discourse_content_keywords
    question_lower (discourse_posts kb) relevant_items.

Definition search_knowledge_base (question : string) : result (list item) :=
  search_in TDS_KNOWLEDGE_BASE question.


(* ===================================================================== *)
(** ** Image describer ([process_image])

    [base64.b64decode] and [PIL.Image.open] are library code: what they make
    of a payload is the [image_library] argument, either an opened image
    (its format and its size) or the message of the exception raised. *)
(* ===================================================================== *)

Inductive image_outcome : Type :=
| ImageOpened (format : string) (width height : Z)
| ImageFailed (message : string).

Definition image_library : Type := string -> image_outcome.

Definition process_image (pil : image_library) (base64_image : string) : string :=
  match pil base64_image with
  | ImageOpened format width height =>
      "Image processed: " +:+ format +:+ " format, size: ("
        +:+ pretty width +:+ ", " +:+ pretty height +:+ ")"
  | ImageFailed message => "Error processing image: " +:+ message
  end.

(* ===================================================================== *)
(** ** Answer composer ([generate_answer])

    The completion call is the [language_model] argument: given the prompt
    it yields the text of [response.choices[0].message.content], or raises
    (the call itself failing, or the reply not having that shape). The model
    identifier, system message, token cap and temperature are constants of
    the call and do not appear. *)
(* ===================================================================== *)

Definition language_model : Type := string -> result string.

Definition nl : string := String (ascii_of_nat 10) EmptyString.

Definition build_prompt (question context : string)
    (image_description : option string) : string :=
  "You are a Teaching Assistant for the Tools in Data Science (TDS) course at IIT Madras."
  +:+ nl +:+ "        " +:+ nl
  +:+ "Question: " +:+ question +:+ nl
  +:+ nl
  +:+ "Context from course materials and discourse:" +:+ nl
  +:+ context +:+ nl
  +:+ nl
  +:+ match image_description with
      | Some d => if PyStr.truthy d then "Image description: " +:+ d else ""
      | None => ""
      end +:+ nl
  +:+ nl
  +:+ "Provide a helpful, accurate answer based on the TDS course content. Be specific and practical.".

Definition fallback_default_content : string :=
  "Please refer to course materials for detailed information.".

Definition apology : string :=
  "I apologize, but I'm having trouble accessing the course information right now. Please check the course materials or post your question on Discourse.".

(** [l[i]] on a list *)
Definition list_getitem {A} (l : list A) (i : nat) : result A :=
  match l !! i with Some x => Ok x | None => Raise IndexError end.

(** The [try] block of [generate_answer]. *)
Definition generate_answer_try (llm : language_model) (question : string)
    (relevant_items : list item) (image_description : option string)
  : result string :=
  let context :=
    PyStr.join nl (map (fun it : item => PyDict.get it "content" "") relevant_items) in
  let prompt := build_prompt question context image_description in
  content ← llm prompt;
  Ok (PyStr.strip content).

(** The [except Exception] handler of [generate_answer]: it indexes the list
    and so could itself raise. *)
Definition generate_answer_except (relevant_items : list item) : result string :=
  match relevant_items with
  | _ :: _ =>
      first ← list_getitem relevant_items 0;
      Ok ("Based on course materials: "
            +:+ PyDict.get first "content" fallback_default_content)
  | [] => Ok apology
  end.

Definition generate_answer (llm : language_model) (question : string)
    (relevant_items : list item) (image_description : option string)
  : result string :=
  match generate_answer_try llm question relevant_items image_description with
  | Ok a => Ok a
  | Raise _ => generate_answer_except relevant_items
  end.

(* ===================================================================== *)
(** ** Link extractor ([get_relevant_links]) *)
(* ===================================================================== *)

Record LinkResponse : Type := { url : string; text : string }.

Definition default_link : LinkResponse := {|
  url := "https://discourse.onlinedegree.iitm.ac.in/c/degree-programs/tools-in-data-science/123";
  text := "TDS Course Discourse Forum"
|}.

(** The link built for one item that has a ["url"] key. The default of the
    outer [get] is evaluated whether or not ["title"] is present. *)
Definition link_of_item (it : item) : result LinkResponse :=
  u ← PyDict.getitem it "url";
  let fallback_text := PyStr.take 100 (PyDict.get it "content" "") in
  Ok {| url := u; text := PyDict.get it "title" fallback_text |}.

(** The [for] loop of [get_relevant_links], [links] being the accumulator. *)
Fixpoint links_loop (relevant_items : list item) (links : list LinkResponse)
  : result (list LinkResponse) :=
  match relevant_items with
  | [] => Ok links
  | it :: rest =>
      if PyDict.mem "url" it then
        l ← link_of_item it;
        links_loop rest (links ++ [l])
      else links_loop rest links
  end.

Definition get_relevant_links (relevant_items : list item)
  : result (list LinkResponse) :=
  links ← links_loop relevant_items [];
  let links := match links with [] => links ++ [default_link] | _ => links end in
  Ok (take 3 links).

(* ===================================================================== *)
(** ** Request handler ([answer_question], POST /api/) *)
(* ===================================================================== *)

Record QuestionRequest : Type := { question : string; image : option string }.

Record AnswerResponse : Type := { answer : string; links : list LinkResponse }.

Inductive http_response : Type :=
| Http200 (body : AnswerResponse)
| Http422
| Http500 (cause : exn).

(** The external services one request may call. *)
Record services : Type := {
  llm : language_model;
  pil : image_library
}.

(** The [try] block of [answer_question]. *)
Definition answer_question_try (ext : services) (request : QuestionRequest)
  : result AnswerResponse :=
  let image_description :=
    match image request with
    | Some img => if PyStr.truthy img then Some (process_image (pil ext) img) else None
    | None => None
    end in
  relevant_items ← search_knowledge_base (question request);
  answer ← generate_answer (llm ext) (question request) relevant_items image_description;
  links ← get_relevant_links relevant_items;
  Ok {| answer := answer; links := links |}.

Definition answer_question (ext : services) (request : QuestionRequest)
  : http_response :=
  match answer_question_try ext request with
  | Ok r => Http200 r
  | Raise e => Http500 e
  end.

(** The body of a POST as the framework hands it to the model class
    [QuestionRequest]: each field is [None] when its key is absent or null.
    [question: str] is required; [image: Optional[str] = None] is not.
    The class declares no other constraint. *)
Record request_body : Type := {
  body_question : option string;
  body_image : option string
}.

Definition validate (b : request_body) : option QuestionRequest :=
  match body_question b with
  | Some q => Some {| question := q; image := body_image b |}
  | None => None
  end.

Definition post_api (ext : services) (b : request_body) : http_response :=
  match validate b with
  | Some request => answer_question ext request
  | None => Http422
  end.

(* ===================================================================== *)
(** ** JSON values as Python sees them

    What [response.json()] returns. Numbers are integers here; an object is
    its key/value pairs in order, a later pair for the same key overriding an
    earlier one, as [json.loads] does. *)
(* ===================================================================== *)

Inductive json : Type :=
| JNull
| JBool (b : bool)
| JNum (n : Z)
| JStr (s : string)
| JArr (elements : list json)
| JObj (fields : list (string * json)).

Module Py.

Fixpoint lookup_last (k : string) (fields : list (string * json)) : option json :=
  match fields with
  | [] => None
  | (k', v) :: rest =>
      match lookup_last k rest with
      | Some v' => Some v'
      | None => if String.eqb k k' then Some v else None
      end
  end.

(** [bool(v)] *)
Definition truthy (v : json) : bool :=
  match v with
  | JNull => false
  | JBool b => b
  | JNum n => negb (n =? 0)%Z
  | JStr s => PyStr.truthy s
  | JArr l => match l with [] => false | _ => true end
  | JObj f => match f with [] => false | _ => true end
  end.

(** [v.get(k, default)]: only a dict has the method. *)
Definition get (v : json) (k : string) (default : json) : result json :=
  match v with
  | JObj f => Ok (match lookup_last k f with Some x => x | None => default end)
  | _ => Raise AttributeError
  end.

(** [v[k]] with a string key. *)
Definition getitem (v : json) (k : string) : result json :=
  match v with
  | JObj f => match lookup_last k f with Some x => Ok x | None => Raise KeyError end
  | _ => Raise TypeError
  end.

Fixpoint chars (s : string) : list json :=
  match s with
  | EmptyString => []
  | String c s' => JStr (String c EmptyString) :: chars s'
  end.

(** [v[i]] with a non-negative integer index. *)
Definition index (v : json) (i : nat) : result json :=
  match v with
  | JArr l => match l !! i with Some x => Ok x | None => Raise IndexError end
  | JStr s => match chars s !! i with Some x => Ok x | None => Raise IndexError end
  | JObj _ => Raise KeyError
  | _ => Raise TypeError
  end.

(** [v[lo:hi]] with non-negative bounds. *)
Definition slice (v : json) (lo hi : nat) : result json :=
  match v with
  | JArr l => Ok (JArr (take (hi - lo) (drop lo l)))
  | JStr s => Ok (JStr (String.substring lo (hi - lo) s))
  | _ => Raise TypeError
  end.

(** The elements a [for x in v] loop visits. *)
Definition iter (v : json) : result (list json) :=
  match v with
  | JArr l => Ok l
  | JStr s => Ok (chars s)
  | JObj f => Ok (map (fun kv => JStr (fst kv)) f)
  | _ => Raise TypeError
  end.

End Py.

(* ===================================================================== *)
(** ** Calendar dates and [datetime.strptime(s, "%Y-%m-%d")]

    The scraper only ever parses with this one format, so every [datetime]
    it holds is a date at midnight and comparing two of them compares
    (year, month, day). *)
(* ===================================================================== *)

Record date : Type := { year : Z; month : Z; day : Z }.

Definition date_le (a b : date) : bool :=
  ((year a <? year b)
   || ((year a =? year b)
       && ((month a <? month b)
           || ((month a =? month b) && (day a <=? day b)))))%Z.

Module Strptime.

Definition digit (c : ascii) : option Z :=
  let n := nat_of_ascii c in
  if ((48 <=? n) && (n <=? 57))%nat then Some (Z.of_nat n - 48)%Z else None.

Definition in_range (lo hi : Z) (d : Z) : bool := ((lo <=? d) && (d <=? hi))%Z.

(** [(?P<Y>\d\d\d\d)] *)
Definition year_directive (s : string) : option (Z * string) :=
  match s with
  | String a (String b (String c (String d rest))) =>
      match digit a, digit b, digit c, digit d with
      | Some a, Some b, Some c, Some d =>
          Some ((a * 1000 + b * 100 + c * 10 + d)%Z, rest)
      | _, _, _, _ => None
      end
  | _ => None
  end.

(** One alternative of two characters [x y] with [x] in [[xlo, xhi]] and
    [y] in [[ylo, yhi]], read as the number [10 x + y]. *)
Definition two_digits (xlo xhi ylo yhi : Z) (s : string) : list (Z * string) :=
  match s with
  | String a (String b rest) =>
      match digit a, digit b with
      | Some x, Some y =>
          if in_range xlo xhi x && in_range ylo yhi y
          then [((10 * x + y)%Z, rest)] else []
      | _, _ => []
      end
  | _ => []
  end.

Definition one_digit (lo hi : Z) (s : string) : list (Z * string) :=
  match s with
  | String a rest =>
      match digit a with
      | Some x => if in_range lo hi x then [(x, rest)] else []
      | None => []
      end
  | _ => []
  end.

(** [(?P<m>1[0-2]|0[1-9]|[1-9])]: the ways to match, in the order the
    regular expression engine tries them. *)
Definition month_directive (s : string) : list (Z * string) :=
  two_digits 1 1 0 2 s ++ two_digits 0 0 1 9 s ++ one_digit 1 9 s.

(** [(?P<d>3[01]|[12]\d|0[1-9]|[1-9]| [1-9])] *)
Definition day_directive (s : string) : list (Z * string) :=
  two_digits 3 3 0 1 s ++ two_digits 1 2 0 9 s ++ two_digits 0 0 1 9 s
    ++ one_digit 1 9 s
    ++ match s with
       | String " " rest => one_digit 1 9 rest
       | _ => []
       end.

Definition dash (s : string) : option string :=
  match s with
  | String "-" rest => Some rest
  | _ => None
  end.

(** The first way through the month alternatives after which a dash and a
    day match; the day's first alternative ends the match. *)
Fixpoint first_match (months : list (Z * string)) : option (Z * Z * string) :=
  match months with
  | [] => None
  | (m, rest) :: others =>
      match dash rest with
      | Some rest' =>
          match day_directive rest' with
          | (d, tail) :: _ => Some (m, d, tail)
          | [] => first_match others
          end
      | None => first_match others
      end
  end.

Definition is_leap (y : Z) : bool :=
  ((y mod 4 =? 0) && (negb (y mod 100 =? 0) || (y mod 400 =? 0)))%Z.

Definition days_in_month (y m : Z) : Z :=
  (if m =? 2 then (if is_leap y then 29 else 28)
   else if (m =? 4) || (m =? 6) || (m =? 9) || (m =? 11) then 30
   else 31)%Z.

(** [datetime.strptime(s, "%Y-%m-%d")]: [ValueError] when the text does not
    match the format, when text remains after the match, or when the
    numbers are not a date ([MINYEAR] is 1). *)
Definition strptime (s : string) : result date :=
  match year_directive s with
  | None => Raise ValueError
  | Some (y, rest) =>
      match dash rest with
      | None => Raise ValueError
      | Some rest' =>
          match first_match (month_directive rest') with
          | Some (m, d, EmptyString) =>
              if ((1 <=? y) && (d <=? days_in_month y m))%Z
              then Ok {| year := y; month := m; day := d |}
              else Raise ValueError
          | _ => Raise ValueError
          end
      end
  end.

(** [strptime] applied to a value that need not be a string. *)
Definition strptime_value (v : json) : result date :=
  match v with
  | JStr s => strptime s
  | _ => Raise TypeError
  end.

End Strptime.

(* ===================================================================== *)
(** ** HTML cleaner ([clean_html])

    [BeautifulSoup(html, 'html.parser')] is library code. It is modelled for
    fragments made of character data, start tags and end tags: the tokenizer
    follows [html.parser] (a tag opens at [<] or [</] followed by a letter,
    its name runs to the first blank, [/] or [>] and is lower-cased, and the
    tag ends at the next [>]), the tree builder follows bs4 (an end tag closes
    every element opened since the matching start tag and is ignored when no
    such element is open; void elements are closed at once; whatever is still
    open at the end is closed; a run of character data made only of ASCII
    blanks becomes one blank outside [pre] and [textarea]).
    Character references, comments, declarations, quoted [>] inside attribute
    values and the raw-text elements are outside the model, and so is markup
    that the parser rejects with an exception: the model parses every
    string. Inside a tag only plain attributes are modelled (no [/] at the
    end of an unquoted value), and [</] not followed by a letter or a tag
    left unfinished at the end of the input is given back as text. *)
(* ===================================================================== *)

Module Html.

Inductive node : Type :=
| Text (s : string)
| Element (name : string) (children : list node).

(** The callbacks of [html.parser]. *)
Inductive event : Type :=
| StartTag (name : string)
| EndTag (name : string)
| Data (s : string).

Definition is_letter (c : ascii) : bool :=
  let n := nat_of_ascii c in
  ((65 <=? n) && (n <=? 90))%nat || ((97 <=? n) && (n <=? 122))%nat.

(** The characters that end a tag name, beside [>]. *)
Definition ends_name (c : ascii) : bool :=
  let n := nat_of_ascii c in
  (n =? 9)%nat || (n =? 10)%nat || (n =? 12)%nat || (n =? 13)%nat
  || (n =? 32)%nat || (n =? 47)%nat || (n =? 0)%nat.

(** Where the tokenizer is. [raw] is the text of the tag read so far (most
    recent character first), given back as data if the input ends inside. *)
Inductive lexer : Type :=
| InData
| AfterLt
| AfterLtSlash
| InName (closing : bool) (raw name : list ascii)
| InTag (closing : bool) (raw : list ascii) (name : string) (last_slash : bool).

Definition string_of_rev (l : list ascii) : string :=
  string_of_list_ascii (rev l).

Definition tag_events (closing : bool) (name : string) (self_closing : bool)
  : list event :=
  if closing then [EndTag name]
  else if self_closing then [StartTag name; EndTag name]
  else [StartTag name].

Definition data_char (c : ascii) : event := Data (String c EmptyString).

(** One character of input: the events it completes and the next state. *)
Definition lex_step (st : lexer) (c : ascii) : list event * lexer :=
  match st with
  | InData =>
      if Ascii.eqb c "<" then ([], AfterLt) else ([data_char c], InData)
  | AfterLt =>
      if is_letter c then ([], InName false [c; "<"%char] [PyStr.lower_char c])
      else if Ascii.eqb c "/" then ([], AfterLtSlash)
      else if Ascii.eqb c "<" then ([data_char "<"], AfterLt)
      else ([data_char "<"; data_char c], InData)
  | AfterLtSlash =>
      if is_letter c
      then ([], InName true [c; "/"%char; "<"%char] [PyStr.lower_char c])
      else if Ascii.eqb c "<" then ([data_char "<"; data_char "/"], AfterLt)
      else ([data_char "<"; data_char "/"; data_char c], InData)
  | InName closing raw name =>
      if Ascii.eqb c ">"
      then (tag_events closing (string_of_rev name) false, InData)
      else if ends_name c
      then ([], InTag closing (c :: raw) (string_of_rev name) (Ascii.eqb c "/"))
      else ([], InName closing (c :: raw) (PyStr.lower_char c :: name))
  | InTag closing raw name last_slash =>
      if Ascii.eqb c ">"
      then (tag_events closing name last_slash, InData)
      else ([], InTag closing (c :: raw) name (Ascii.eqb c "/"))
  end.

(** What is given back when the input ends. *)
Definition lex_end (st : lexer) : list event :=
  match st with
  | InData => []
  | AfterLt => [data_char "<"]
  | AfterLtSlash => [data_char "<"; data_char "/"]
  | InName _ raw _ => [Data (string_of_rev raw)]
  | InTag _ raw _ _ => [Data (string_of_rev raw)]
  end.

Fixpoint lex (st : lexer) (s : string) : list event :=
  match s with
  | EmptyString => lex_end st
  | String c s' => let '(evs, st') := lex_step st c in evs ++ lex st' s'
  end.

(** [parser.feed(markup); parser.close()] *)
Definition feed (markup : string) : list event := lex InData markup.

(** *** The tree builder *)

Definition void_elements : list string :=
  ["area"; "base"; "br"; "col"; "embed"; "hr"; "img"; "input"; "keygen";
   "link"; "menuitem"; "meta"; "param"; "source"; "track"; "wbr";
   "basefont"; "bgsound"; "command"; "frame"; "image"; "isindex"; "nextid";
   "spacer"].

Definition preserve_whitespace_tags : list string := ["pre"; "textarea"].

Definition name_in (name : string) (names : list string) : bool :=
  existsb (String.eqb name) names.

(** An element that is still open, with the children it has so far. *)
Record frame : Type := { frame_name : string; frame_children : list node }.

(** The state of the builder: the pending character data, the open elements
    (innermost first) and the children of the document root. *)
Record builder : Type := {
  current_data : string;
  tagStack : list frame;
  root_contents : list node
}.

Definition new_builder : builder :=
  {| current_data := ""; tagStack := []; root_contents := [] |}.

(** Append a node to the innermost open element. *)
Definition append_child (n : node) (b : builder) : builder :=
  match tagStack b with
  | f :: fs =>
      {| current_data := current_data b;
         tagStack := {| frame_name := frame_name f;
                        frame_children := frame_children f ++ [n] |} :: fs;
         root_contents := root_contents b |}
  | [] =>
      {| current_data := current_data b;
         tagStack := [];
         root_contents := root_contents b ++ [n] |}
  end.

Definition is_ascii_space (c : ascii) : bool :=
  let n := nat_of_ascii c in
  (n =? 32)%nat || (n =? 10)%nat || (n =? 9)%nat || (n =? 12)%nat || (n =? 13)%nat.

Fixpoint all_ascii_spaces (s : string) : bool :=
  match s with
  | EmptyString => true
  | String c s' => is_ascii_space c && all_ascii_spaces s'
  end.

Fixpoint has_newline (s : string) : bool :=
  match s with
  | EmptyString => false
  | String c s' => (nat_of_ascii c =? 10)%nat || has_newline s'
  end.

Definition preserving (b : builder) : bool :=
  existsb (fun f => name_in (frame_name f) preserve_whitespace_tags) (tagStack b).

(** [endData]: the pending character data becomes one text node. *)
Definition endData (b : builder) : builder :=
  match current_data b with
  | EmptyString => b
  | d =>
      let d' :=
        if all_ascii_spaces d && negb (preserving b)
        then (if has_newline d then nl else " ")
        else d in
      append_child (Text d')
        {| current_data := ""; tagStack := tagStack b;
           root_contents := root_contents b |}
  end.

Definition pushTag (name : string) (b : builder) : builder :=
  {| current_data := current_data b;
     tagStack := {| frame_name := name; frame_children := [] |} :: tagStack b;
     root_contents := root_contents b |}.

(** [popTag]: the innermost open element is closed and becomes a child of
    the one around it. *)
Definition popTag (b : builder) : builder :=
  match tagStack b with
  | f :: fs =>
      append_child (Element (frame_name f) (frame_children f))
        {| current_data := current_data b; tagStack := fs;
           root_contents := root_contents b |}
  | [] => b
  end.

Fixpoint popToTag_loop (name : string) (steps : nat) (b : builder) : builder :=
  match steps with
  | O => b
  | S steps' =>
      match tagStack b with
      | [] => b
      | f :: _ =>
          if String.eqb name (frame_name f) then popTag b
          else popToTag_loop name steps' (popTag b)
      end
  end.

(** [_popToTag(name)]: nothing when no element of that name is open. *)
Definition popToTag (name : string) (b : builder) : builder :=
  if existsb (fun f => String.eqb name (frame_name f)) (tagStack b)
  then popToTag_loop name (length (tagStack b)) b
  else b.

Definition handle_endtag (name : string) (b : builder) : builder :=
  popToTag name (endData b).

Definition handle_starttag (name : string) (b : builder) : builder :=
  let b' := pushTag name (endData b) in
  if name_in name void_elements then handle_endtag name b' else b'.

Definition handle_data (s : string) (b : builder) : builder :=
  {| current_data := current_data b +:+ s; tagStack := tagStack b;
     root_contents := root_contents b |}.

Definition handle (b : builder) (e : event) : builder :=
  match e with
  | StartTag name => handle_starttag name b
  | EndTag name => handle_endtag name b
  | Data s => handle_data s b
  end.

Fixpoint popAll (steps : nat) (b : builder) : builder :=
  match steps with
  | O => b
  | S steps' => popAll steps' (popTag b)
  end.

(** The end of the document: pending data is flushed and every element
    still open is closed. *)
Definition finish (b : builder) : list node :=
  let b' := endData b in
  root_contents (popAll (length (tagStack b')) b').

(** [BeautifulSoup(markup, 'html.parser')]: the children of the root. *)
Definition BeautifulSoup (markup : string) : list node :=
  finish (fold_left handle (feed markup) new_builder).

(** *** [decompose] and [get_text] *)

(** [for element in soup(names): element.decompose()]: every element with
    one of the names is removed with all it contains. *)
Fixpoint decompose_node (names : list string) (n : node) : option node :=
  match n with
  | Text s => Some (Text s)
  | Element name children =>
      if name_in name names then None
      else Some (Element name
        ((fix each (l : list node) : list node :=
            match l with
            | [] => []
            | c :: l' =>
                match decompose_node names c with
                | Some c' => c' :: each l'
                | None => each l'
                end
            end) children))
  end.

Definition decompose_all (names : list string) (soup : list node) : list node :=
  omap (decompose_node names) soup.

(** [get_text()]: the text nodes in document order, nothing between them. *)
Fixpoint node_text (n : node) : string :=
  match n with
  | Text s => s
  | Element _ children =>
      (fix each (l : list node) : string :=
         match l with
         | [] => ""
         | c :: l' => node_text c +:+ each l'
         end) children
  end.

Definition get_text (soup : list node) : string :=
  fold_right (fun n acc => node_text n +:+ acc) "" soup.

Definition removed_elements : list string := ["code"; "pre"; "blockquote"].

(** The part of [clean_html] after parsing. *)
Definition clean_soup (soup : list node) : string :=
  PyStr.strip (get_text (decompose_all removed_elements soup)).

End Html.

(** [DiscourseScraperTDS.clean_html] on a string. *)
Definition clean_html (html_content : string) : string :=
  if negb (PyStr.truthy html_content) then ""
  else Html.clean_soup (Html.BeautifulSoup html_content).

(** [clean_html] on whatever value the JSON holds under ["cooked"]: a falsy
    value gives the empty string before the parser is reached; a truthy value
    that is not a string is refused by [BeautifulSoup] with a [TypeError]. *)
Definition clean_html_value (html_content : json) : result string :=
  if negb (Py.truthy html_content) then Ok ""
  else match html_content with
       | JStr s => Ok (clean_html s)
       | _ => Raise TypeError
       end.

(* ===================================================================== *)
(** ** Forum client and scrape orchestrator ([DiscourseScraperTDS])

    The forum is the [forum] argument: what [session.get] returns for a
    listing page and for a topic, or the exception it raises. Every request
    issued is appended to a log, which the functions thread through.
    [time.sleep] and [print] do not affect any result and are left out. *)
(* ===================================================================== *)

Module Scraper.

Record response : Type := {
  status_code : Z;
  json_body : result json        (* [response.json()] *)
}.

Record forum : Type := {
  get_category : Z -> Z -> result response;   (* category id, page *)
  get_topic : json -> result response         (* topic id *)
}.

Inductive request : Type :=
| GetCategory (category_id page : Z)
| GetTopic (topic_id : json).

Record Reply : Type := {
  reply_content : string;
  reply_author : json;
  reply_created_at : json
}.

(** [url] is [f"{base_url}/t/{topic_id}"], kept as its two parts. *)
Record ScrapedPost : Type := {
  post_id : json;
  post_title : json;
  post_url : string * json;
  post_content : string;
  post_created_at : json;
  post_author : json;
  post_replies : list Reply
}.

(** The loop over [posts[1:5]], [replies] being [post_data['replies']]. *)
Fixpoint replies_loop (posts : list json) (replies : list Reply)
  : result (list Reply) :=
  match posts with
  | [] => Ok replies
  | post :: rest =>
      cooked ← Py.get post "cooked" (JStr "");
      content ← clean_html_value cooked;
      author ← Py.get post "username" (JStr "");
      created_at ← Py.get post "created_at" (JStr "");
      replies_loop rest
        (replies ++ [{| reply_content := content; reply_author := author;
                        reply_created_at := created_at |}])
  end.

(** What [scrape_topic_details] does with the response, inside its [try]. *)
Definition topic_details_of (base_url : string) (topic_id : json)
    (r : result response) : result (option ScrapedPost) :=
  response ← r;
  if negb (status_code response =? 200)%Z then Ok None
  else
    data ← json_body response;
    post_stream ← Py.get data "post_stream" (JObj []);
    posts ← Py.get post_stream "posts" (JArr []);
    if negb (Py.truthy posts) then Ok None
    else
      main_post ← Py.index posts 0;
      title ← Py.get data "title" (JStr "");
      cooked ← Py.get main_post "cooked" (JStr "");
      content ← clean_html_value cooked;
      created_at ← Py.get main_post "created_at" (JStr "");
      author ← Py.get main_post "username" (JStr "");
      tail ← Py.slice posts 1 5;
      tail_posts ← Py.iter tail;
      replies ← replies_loop tail_posts [];
      Ok (Some {| post_id := topic_id;
                  post_title := title;
                  post_url := (base_url, topic_id);
                  post_content := content;
                  post_created_at := created_at;
                  post_author := author;
                  post_replies := replies |}).

(** [scrape_topic_details]: one request; any exception gives [None]. *)
Definition scrape_topic_details (f : forum) (base_url : string)
    (topic_id : json) (log : list request)
  : list request * option ScrapedPost :=
  let log' := log ++ [GetTopic topic_id] in
  match topic_details_of base_url topic_id (get_topic f topic_id) with
  | Ok post_data => (log', post_data)
  | Raise _ => (log', None)
  end.

(** [datetime.strptime(topic['created_at'][:10], "%Y-%m-%d")] *)
Definition topic_created_at (topic : json) : result date :=
  created_at ← Py.getitem topic "created_at";
  prefix ← Py.slice created_at 0 10;
  Strptime.strptime_value prefix.

(** The [for topic in topics] loop. *)
Fixpoint topics_loop (f : forum) (base_url : string) (start_dt end_dt : date)
    (topics : list json) (posts : list ScrapedPost) (log : list request)
  : list request * result (list ScrapedPost) :=
  match topics with
  | [] => (log, Ok posts)
  | topic :: rest =>
      match topic_created_at topic with
      | Raise e => (log, Raise e)
      | Ok created_at =>
          if date_le start_dt created_at && date_le created_at end_dt then
            match Py.getitem topic "id" with
            | Raise e => (log, Raise e)
            | Ok topic_id =>
                let '(log', post_data) :=
                  scrape_topic_details f base_url topic_id log in
                match post_data with
                | Some p =>
                    topics_loop f base_url start_dt end_dt rest (posts ++ [p]) log'
                | None =>
                    topics_loop f base_url start_dt end_dt rest posts log'
                end
            end
          else topics_loop f base_url start_dt end_dt rest posts log
      end
  end.

(** How one turn of the [while] loop ends. *)
Inductive turn : Type :=
| Break (posts : list ScrapedPost)
| Continue (posts : list ScrapedPost).

(** The topics of a listing response, or the reason to leave the loop
    ([None]: the status is not 200). *)
Definition listing_topics (r : result response) : result (option json) :=
  response ← r;
  if negb (status_code response =? 200)%Z then Ok None
  else
    data ← json_body response;
    topic_list ← Py.get data "topic_list" (JObj []);
    topics ← Py.get topic_list "topics" (JArr []);
    Ok (Some topics).

(** The body of the [while] loop for one page. *)
Definition scrape_page (f : forum) (base_url : string) (category_id : Z)
    (start_dt end_dt : date) (page : Z) (posts : list ScrapedPost)
    (log : list request) : list request * result turn :=
  let log1 := log ++ [GetCategory category_id page] in
  match listing_topics (get_category f category_id page) with
  | Raise e => (log1, Raise e)
  | Ok None => (log1, Ok (Break posts))
  | Ok (Some topics) =>
      if negb (Py.truthy topics) then (log1, Ok (Break posts))
      else
        match Py.iter topics with
        | Raise e => (log1, Raise e)
        | Ok topic_list =>
            match topics_loop f base_url start_dt end_dt topic_list posts log1 with
            | (log2, Ok posts') => (log2, Ok (Continue posts'))
            | (log2, Raise e) => (log2, Raise e)
            end
        end
  end.

(** [while page < 10: ...; page += 1] *)
Equations while_pages (f : forum) (base_url : string) (category_id : Z)
    (start_dt end_dt : date) (page : Z) (posts : list ScrapedPost)
    (log : list request) : list request * result (list ScrapedPost)
    by wf (Z.to_nat (10 - page)) lt :=
while_pages f base_url category_id start_dt end_dt page posts log
  with Z_lt_dec page 10 := {
  | right _ => (log, Ok posts)
  | left _ with scrape_page f base_url category_id start_dt end_dt page posts log := {
    | (log', Raise e) => (log', Raise e)
    | (log', Ok (Break posts')) => (log', Ok posts')
    | (log', Ok (Continue posts')) =>
        while_pages f base_url category_id start_dt end_dt (page + 1) posts' log'
    }
  }.
Next Obligation. lia. Qed.

(** The [try] block of [scrape_discourse_posts]. *)
Definition scrape_discourse_posts_try (f : forum) (base_url : string)
    (start_date end_date : string) (category_id : Z) (log : list request)
  : list request * result (list ScrapedPost) :=
  match Strptime.strptime start_date with
  | Raise e => (log, Raise e)
  | Ok start_dt =>
      match Strptime.strptime end_date with
      | Raise e => (log, Raise e)
      | Ok end_dt =>
          while_pages f base_url category_id start_dt end_dt 0 [] log
      end
  end.

(** [scrape_discourse_posts]: any exception gives the empty list. *)
Definition scrape_discourse_posts (f : forum) (base_url : string)
    (start_date end_date : string) (category_id : Z) (log : list request)
  : list request * list ScrapedPost :=
  match scrape_discourse_posts_try f base_url start_date end_date category_id log with
  | (log', Ok posts) => (log', posts)
  | (log', Raise _) => (log', [])
  end.

End Scraper.

(* ===================================================================== *)
(** ** Saving and the entry point ([save_scraped_data], [main])

    The file system is the [open_file] argument: whether [open(filename,
    'w')] succeeds. What [json.dump(posts, f, indent=2, ensure_ascii=False)]
    writes is kept as the list of posts itself, not as text. *)
(* ===================================================================== *)

Module Entry.

Inductive output : Type :=
| Written (filename : string) (posts : list Scraper.ScrapedPost)
| NotWritten.

(** The default of [DiscourseScraperTDS.__init__]. *)
Definition default_base_url : string :=
  "https://discourse.onlinedegree.iitm.ac.in".

(** [save_scraped_data]: an exception while saving is printed, not raised. *)
Definition save_scraped_data (open_file : string -> result unit)
    (posts : list Scraper.ScrapedPost) (filename : string) : output :=
  match open_file filename with
  | Ok _ => Written filename posts
  | Raise _ => NotWritten
  end.

(** [main]: scrape the fixed range with the default category, and save when
    the list is not empty. *)
Definition main (f : Scraper.forum) (open_file : string -> result unit)
  : list Scraper.request * output :=
  let start_date := "2025-01-01" in
  let end_date := "2025-04-14" in
  let '(log, posts) :=
    Scraper.scrape_discourse_posts f default_base_url start_date end_date 123 [] in
  match posts with
  | _ :: _ => (log, save_scraped_data open_file posts "scraped_discourse_data.json")
  | [] => (log, NotWritten)
  end.

End Entry.

(* ===================================================================== *)
(** * Vocabulary of the specification

    The notions the properties below are stated with, and a small forum and
    a few stand-ins for the external services to run the code on. *)
(* ===================================================================== *)

Section Vocabulary.

Import Html Scraper.

Definition has_content (it : item) : Prop := is_Some (it !! "content").

(** The test the nested [if]s apply to one item. *)
Definition matches (question_kws content_kws : list string)
    (question_lower : string) (it : item) : bool :=
  PyStr.any_in question_kws question_lower
  && PyStr.any_in content_kws (PyStr.lower (PyDict.get it "content" "")).

Definition carries_url (it : item) : Prop := is_Some (it !! "url").

(** The pair the specification describes for an item that has a URL: the
    title when there is one, else the first 100 characters of the content. *)
Definition display_link (it : item) : LinkResponse :=
  {| url := default "" (it !! "url");
     text := match it !! "title" with
             | Some t => t
             | None => PyStr.take 100 (default "" (it !! "content"))
             end |}.

Definition context_of (relevant_items : list item) : string :=
  PyStr.join nl (map (fun it : item => PyDict.get it "content" "") relevant_items).

(** The answer of the fallback path. *)
Definition fallback_answer (relevant_items : list item) : string :=
  match relevant_items with
  | first :: _ =>
      "Based on course materials: "
        +:+ default fallback_default_content (first !! "content")
  | [] => apology
  end.

(** The image description the handler passes on. *)
Definition image_description_of (ext : services) (request : QuestionRequest)
  : option string :=
  match image request with
  | Some img => if PyStr.truthy img then Some (process_image (pil ext) img) else None
  | None => None
  end.

(** The prompt the handler ends up sending for a request. *)
Definition prompt_of (ext : services) (request : QuestionRequest)
    (relevant_items : list item) : string :=
  build_prompt (question request) (context_of relevant_items)
    (image_description_of ext request).

Definition failing_model : language_model := fun _ => Raise OpenAIError.
Definition no_image : image_library := fun _ => ImageFailed "cannot identify image file".



(** The reply built from one post of the stream. *)
Definition reply_of (post : json) : result Reply :=
  cooked ← Py.get post "cooked" (JStr "");
  content ← clean_html_value cooked;
  author ← Py.get post "username" (JStr "");
  created_at ← Py.get post "created_at" (JStr "");
  Ok {| reply_content := content; reply_author := author;
        reply_created_at := created_at |}.

(** The post stream of a topic as the forum serves it. *)
Definition topic_posts (f : forum) (topic_id : json) : result json :=
  response ← get_topic f topic_id;
  data ← json_body response;
  post_stream ← Py.get data "post_stream" (JObj []);
  Py.get post_stream "posts" (JArr []).

(** The listing pages requested, in the order of the requests. *)
Definition listing_pages (log : list request) : list Z :=
  omap (fun r => match r with
                 | GetCategory _ page => Some page
                 | GetTopic _ => None
                 end) log.

(** [start <= d <= end] on datetimes. *)
Definition within (start_dt end_dt d : date) : bool :=
  date_le start_dt d && date_le d end_dt.

(** [topic] is one of the topics the loop visits on listing page [page]. *)
Definition listed (f : forum) (category_id page : Z) (topic : json) : Prop :=
  exists topics l,
    listing_topics (get_category f category_id page) = Ok (Some topics)
    /\ Py.iter topics = Ok l
    /\ In topic l.

(** Where a scraped post comes from: a topic listed on one of the pages
    0 to 9 whose listed creation date is in range, and the detail response
    for that topic's id. *)
Definition scraped_from (f : forum) (base_url : string) (category_id : Z)
    (start_dt end_dt : date) (p : ScrapedPost) : Prop :=
  exists (page : Z) (topic : json) (created : date) (topic_id : json),
    (0 <= page < 10)%Z
    /\ listed f category_id page topic
    /\ topic_created_at topic = Ok created
    /\ within start_dt end_dt created = true
    /\ Py.getitem topic "id" = Ok topic_id
    /\ post_id p = topic_id
    /\ topic_details_of base_url topic_id (get_topic f topic_id) = Ok (Some p).

(** The creation date a [ScrapedPost] itself carries, read the way the
    listing dates are read. *)
Definition post_created_date (p : ScrapedPost) : result date :=
  prefix ← Py.slice (post_created_at p) 0 10;
  Strptime.strptime_value prefix.

(** *** A small forum to run the scraper on *)

Definition ok_json (v : json) : result response :=
  Ok {| status_code := 200; json_body := Ok v |}.

Definition not_found : result response :=
  Ok {| status_code := 404; json_body := Raise JSONDecodeError |}.

Definition listing_json (topics : list json) : json :=
  JObj [("topic_list", JObj [("topics", JArr topics)])].

Definition topic_json (topic_id : Z) (created_at : string) : json :=
  JObj [("id", JNum topic_id); ("created_at", JStr created_at)].

Definition post_json (username cooked created_at : string) : json :=
  JObj [("username", JStr username); ("cooked", JStr cooked);
        ("created_at", JStr created_at)].

Definition detail_json (title : string) (posts : list json) : json :=
  JObj [("title", JStr title); ("post_stream", JObj [("posts", JArr posts)])].

(** A forum with one listing page of the given topics. Topic 7 has a body
    and five further posts; its first post carries an earlier date than the
    listing does. Topic 8 cannot be fetched. *)
Definition one_page_forum (topics : list json) : forum := {|
  get_category := fun _ page =>
    if (page =? 0)%Z then ok_json (listing_json topics)
    else ok_json (listing_json []);
  get_topic := fun topic_id =>
    match topic_id with
    | JNum 7 =>
        ok_json (detail_json "GA5"
          [post_json "asker" "<p>Which <code>model</code>?</p>" "2024-12-25T08:00:00.000Z";
           post_json "r1" "one" "2025-02-02T08:00:00.000Z";
           post_json "r2" "two" "2025-02-03T08:00:00.000Z";
           post_json "r3" "three" "2025-02-04T08:00:00.000Z";
           post_json "r4" "four" "2025-02-05T08:00:00.000Z";
           post_json "r5" "five" "2025-02-06T08:00:00.000Z"])
    | JNum 9 =>
        ok_json (detail_json "Deadline"
          [post_json "other" "When?" "2025-03-01T09:30:00.000Z"])
    | _ => not_found
    end
|}.

Definition topic_7 : json := topic_json 7 "2025-02-01T10:00:00.000Z".
Definition topic_8 : json := topic_json 8 "2025-02-10T10:00:00.000Z".
Definition topic_9 : json := topic_json 9 "2025-03-01T09:30:00.000Z".
Definition topic_old : json := topic_json 5 "2024-06-01T10:00:00.000Z".
Definition topic_undated : json :=
  JObj [("id", JNum 9); ("created_at", JStr "yesterday")].

Definition post_7 : ScrapedPost := {|
  post_id := JNum 7;
  post_title := JStr "GA5";
  post_url := ("https://discourse.onlinedegree.iitm.ac.in", JNum 7);
  post_content := "Which ?";
  post_created_at := JStr "2024-12-25T08:00:00.000Z";
  post_author := JStr "asker";
  post_replies :=
    [{| reply_content := "one"; reply_author := JStr "r1";
        reply_created_at := JStr "2025-02-02T08:00:00.000Z" |};
     {| reply_content := "two"; reply_author := JStr "r2";
        reply_created_at := JStr "2025-02-03T08:00:00.000Z" |};
     {| reply_content := "three"; reply_author := JStr "r3";
        reply_created_at := JStr "2025-02-04T08:00:00.000Z" |};
     {| reply_content := "four"; reply_author := JStr "r4";
        reply_created_at := JStr "2025-02-05T08:00:00.000Z" |}]
|}.

Definition post_9 : ScrapedPost := {|
  post_id := JNum 9;
  post_title := JStr "Deadline";
  post_url := ("https://discourse.onlinedegree.iitm.ac.in", JNum 9);
  post_content := "When?";
  post_created_at := JStr "2025-03-01T09:30:00.000Z";
  post_author := JStr "other";
  post_replies := []
|}.

Definition base : string := "https://discourse.onlinedegree.iitm.ac.in".

(** A listing entry the loop gets past: its date parses and, when the date
    is in range, it has an id. *)
Definition entry_ok (start_dt end_dt : date) (topic : json) : bool :=
  match topic_created_at topic with
  | Ok d =>
      if within start_dt end_dt d
      then match Py.getitem topic "id" with Ok _ => true | Raise _ => false end
      else true
  | Raise _ => false
  end.

(** The id of a listing entry whose date is in range. *)
Definition selected_id (start_dt end_dt : date) (topic : json) : option json :=
  match topic_created_at topic with
  | Ok d =>
      if within start_dt end_dt d
      then match Py.getitem topic "id" with Ok i => Some i | Raise _ => None end
      else None
  | Raise _ => None
  end.

(** The post assembled for a topic id, if its detail can be fetched and
    read. *)
Definition assembled (f : forum) (base_url : string) (topic_id : json)
  : option ScrapedPost :=
  (scrape_topic_details f base_url topic_id []).2.

(** *** More vocabulary: what the service can answer *)

(** The answer template around one item's content. *)
Definition template_answer (it : item) : string :=
  "Based on course materials: "
    +:+ default fallback_default_content (it !! "content").

(** The question has one of the keywords, in lower case, somewhere. *)
Definition mentions (kws : list string) (q : string) : bool :=
  PyStr.any_in kws (PyStr.lower q).

(** A language model that is down: every call raises. *)
Definition model_down (m : language_model) : Prop :=
  forall prompt, exists e, m prompt = Raise e.

(** A store whose only course item has no ["content"] key. *)
Definition store_without_content : knowledge_base := {|
  course_content := [list_to_map [("topic", "Later"); ("source", "TBD")]];
  discourse_posts := []
|}.

(** The one link the static store can produce. *)
Definition ga5_link : LinkResponse := {|
  url := "https://discourse.onlinedegree.iitm.ac.in/t/ga5-question-8-clarification/155939/4";
  text := "GA5 Question 8 Clarification"
|}.

Definition starts_with_space (s : string) : bool :=
  match s with
  | EmptyString => false
  | String c _ => PyStr.is_space c
  end.

Fixpoint ends_with_space (s : string) : bool :=
  match s with
  | EmptyString => false
  | String c EmptyString => PyStr.is_space c
  | String _ s' => ends_with_space s'
  end.

(** *** More vocabulary: what the scraper may request *)

(** The requests one scrape may issue: listing pages 0 to 9 of its own
    category, and the detail of a topic listed there with a date in range. *)
Definition request_allowed (f : forum) (category_id : Z)
    (start_dt end_dt : date) (r : request) : Prop :=
  match r with
  | GetCategory c page => c = category_id /\ (0 <= page < 10)%Z
  | GetTopic topic_id =>
      exists (page : Z) (topic : json) (created : date),
        (0 <= page < 10)%Z
        /\ listed f category_id page topic
        /\ topic_created_at topic = Ok created
        /\ within start_dt end_dt created = true
        /\ Py.getitem topic "id" = Ok topic_id
  end.

(** A forum whose listing has the given topics on page 0 and answers the
    request for page 1 with [second]. *)
Definition two_page_forum (topics : list json) (second : result response)
  : forum := {|
  get_category := fun _ page =>
    if (page =? 0)%Z then ok_json (listing_json topics) else second;
  get_topic := get_topic (one_page_forum topics)
|}.

(** A forum with the same old topic on every listing page. *)
Definition endless_forum : forum := {|
  get_category := fun _ _ => ok_json (listing_json [topic_old]);
  get_topic := fun _ => not_found
|}.

(** Character data that is neither markup nor a character reference. *)
Definition plain_text (s : string) : bool :=
  negb (PyStr.contains "<" s) && negb (PyStr.contains "&" s).

(** A post of the stream that [scrape_topic_details] can surely read: an
    object whose ["cooked"] is absent, falsy, or a string of plain text. *)
Definition readable (post : json) : bool :=
  match post with
  | JObj fields =>
      match Py.lookup_last "cooked" fields with
      | None => true
      | Some (JStr s) => plain_text s
      | Some v => negb (Py.truthy v)
      end
  | _ => false
  end.

(** A forum with one topic, 12, of three posts in plain text. *)
Definition plain_forum : forum := {|
  get_category := fun _ _ => ok_json (listing_json []);
  get_topic := fun topic_id =>
    match topic_id with
    | JNum 12 =>
        ok_json (detail_json "Exam"
          [post_json "asker" " When is it? " "2025-03-02T08:00:00.000Z";
           post_json "ta" "On Friday" "2025-03-02T09:00:00.000Z";
           post_json "asker" "Thanks" "2025-03-02T09:05:00.000Z"])
    | _ => not_found
    end
|}.

(** *** More vocabulary: failures of a topic's detail, topics of a page *)

(** The ways the detail of a topic fails before a post is built: the
    request raises, the status is not 200, the body is not JSON, the body or
    its post stream does not have the shape read, there is no post, or the
    first post is not an object. *)
Inductive detail_failure (f : forum) (topic_id : json) : Prop :=
| request_raised (e : exn) :
    get_topic f topic_id = Raise e -> detail_failure f topic_id
| bad_status (r : response) :
    get_topic f topic_id = Ok r -> status_code r <> 200%Z ->
    detail_failure f topic_id
| malformed_json (r : response) (e : exn) :
    get_topic f topic_id = Ok r -> json_body r = Raise e ->
    detail_failure f topic_id
| ill_shaped (r : response) (data : json) (e : exn) :
    get_topic f topic_id = Ok r -> json_body r = Ok data ->
    (post_stream ← Py.get data "post_stream" (JObj []);
     Py.get post_stream "posts" (JArr [])) = Raise e ->
    detail_failure f topic_id
| no_posts (r : response) (data posts : json) :
    get_topic f topic_id = Ok r -> json_body r = Ok data ->
    (post_stream ← Py.get data "post_stream" (JObj []);
     Py.get post_stream "posts" (JArr [])) = Ok posts ->
    Py.truthy posts = false ->
    detail_failure f topic_id
| bad_first_post (r : response) (data posts : json) (e : exn) :
    get_topic f topic_id = Ok r -> json_body r = Ok data ->
    (post_stream ← Py.get data "post_stream" (JObj []);
     Py.get post_stream "posts" (JArr [])) = Ok posts ->
    (main_post ← Py.index posts 0; Py.get main_post "cooked" (JStr "")) = Raise e ->
    detail_failure f topic_id.

(** The topics the loop visits on a listing page (none when the page ends
    the paging). *)
Definition page_topics (f : forum) (category_id page : Z) : list json :=
  match listing_topics (get_category f category_id page) with
  | Ok (Some topics) =>
      if Py.truthy topics
      then match Py.iter topics with Ok l => l | Raise _ => [] end
      else []
  | _ => []
  end.

(** The posts assembled for the in-range topics of a listing page, in the
    order of the listing; a topic whose detail gives nothing is left out. *)
Definition page_posts (f : forum) (base_url : string) (category_id : Z)
    (start_dt end_dt : date) (page : Z) : list ScrapedPost :=
  omap (assembled f base_url)
    (omap (selected_id start_dt end_dt) (page_topics f category_id page)).

End Vocabulary.

(* ===================================================================== *)
(** * Properties *)
(* ===================================================================== *)

(** ** Strings *)

#[local] Arguments String.append !s1 s2 : simpl nomatch.

Section StringFacts.

Lemma lower_append (a b : string) :
  PyStr.lower (a +:+ b) = PyStr.lower a +:+ PyStr.lower b.
Proof. induction a as [|x a IH]; simpl; [reflexivity | now rewrite IH]. Qed.

Lemma startswith_append (p s : string) : PyStr.startswith p (p +:+ s) = true.
Proof.
  induction p as [|x p IH]; simpl; [reflexivity|].
  now rewrite Ascii.eqb_refl.
Qed.

Lemma startswith_spec (p s : string) :
  PyStr.startswith p s = true <-> exists t, s = p +:+ t.
Proof.
  split.
  - revert s; induction p as [|x p IH]; intros s H.
    + now exists s.
    + destruct s as [|y s]; simpl in H; [discriminate|].
      destruct (Ascii.eqb x y) eqn:E; [|discriminate].
      apply Ascii.eqb_eq in E; subst y.
      destruct (IH _ H) as [t ->]. now exists t.
  - intros [t ->]. apply startswith_append.
Qed.

Lemma contains_startswith (p s : string) :
  PyStr.startswith p s = true -> PyStr.contains p s = true.
Proof. intros H. destruct s; simpl; now rewrite H. Qed.

(** [kw in s] holds exactly when [s] is [pre + kw + post]. *)
Lemma contains_spec (kw s : string) :
  PyStr.contains kw s = true <-> exists pre post, s = pre +:+ kw +:+ post.
Proof.
  split.
  - induction s as [|c s IH]; simpl; intros H.
    + apply orb_true_iff in H as [H|H]; [|discriminate].
      apply startswith_spec in H as [t ->]. now exists "", t.
    + apply orb_true_iff in H as [H|H].
      * apply startswith_spec in H as [t ->]. now exists "", t.
      * destruct (IH H) as (pre & post & ->). now exists (String c pre), post.
  - intros (pre & post & ->).
    induction pre as [|c pre IH]; simpl.
    + apply contains_startswith, startswith_append.
    + rewrite IH. apply orb_true_r.
Qed.

Lemma any_in_intro (kws : list string) (kw s : string) :
  In kw kws -> PyStr.contains kw s = true -> PyStr.any_in kws s = true.
Proof.
  intros Hin Hc. unfold PyStr.any_in. apply existsb_exists. now exists kw.
Qed.

End StringFacts.

(** ** Relevance matcher *)

Section Matcher.

Variables question_kws content_kws : list string.
Variable question_lower : string.

Lemma search_loop_filter (collection acc : list item) :
  Forall has_content collection ->
  search_loop question_kws content_kws question_lower collection acc
  = Ok (acc ++ filter (fun it => matches question_kws content_kws question_lower it = true)
                collection).
Proof.
  intros Hall. revert acc.
  induction Hall as [|it rest [c Hc] _ IH]; intros acc; cbn [search_loop].
  - now rewrite app_nil_r.
  - assert (Hm : matches question_kws content_kws question_lower it
                 = PyStr.any_in question_kws question_lower
                   && PyStr.any_in content_kws (PyStr.lower c))
      by (unfold matches, PyDict.get; now rewrite Hc).
    unfold PyDict.getitem. rewrite Hc. cbn [mbind result_bind rbind].
    rewrite filter_cons.
    destruct (decide (matches question_kws content_kws question_lower it = true)) as [Ht|Hf]; rewrite Hm in *.
    + apply andb_true_iff in Ht as [-> ->].
      rewrite IH. now rewrite <- List.app_assoc.
    + destruct (PyStr.any_in question_kws question_lower); [|apply IH].
      destruct (PyStr.any_in content_kws (PyStr.lower c)); [|apply IH].
      now contradiction Hf.
Qed.

End Matcher.

Lemma kb_course_has_content :
  Forall has_content (course_content TDS_KNOWLEDGE_BASE).
Proof. repeat constructor; eexists; vm_compute; reflexivity. Qed.

Lemma kb_discourse_has_content :
  Forall has_content (discourse_posts TDS_KNOWLEDGE_BASE).
Proof. repeat constructor; eexists; vm_compute; reflexivity. Qed.

(** What the matcher returns on the static store: the question decides, per
    collection, between everything that can match and nothing. *)
Lemma search_knowledge_base_eq (q : string) :
  search_knowledge_base q
  = Ok ((if PyStr.any_in course_question_keywords (PyStr.lower q)
         then [course_item_1; course_item_2; course_item_3] else [])
        ++ (if PyStr.any_in discourse_question_keywords (PyStr.lower q)
            then [discourse_item_1] else [])).
Proof.
  unfold search_knowledge_base, search_in.
  rewrite (search_loop_filter _ _ _ _ _ kb_course_has_content).
  cbn [mbind result_bind rbind].
  rewrite (search_loop_filter _ _ _ _ _ kb_discourse_has_content).
  f_equal. f_equal.
  - cbn [app]. unfold TDS_KNOWLEDGE_BASE, course_content.
    set (b := PyStr.any_in course_question_keywords (PyStr.lower q)).
    assert (E : forall it, matches course_question_keywords course_content_keywords
                     (PyStr.lower q) it
                   = b && PyStr.any_in course_content_keywords
                            (PyStr.lower (PyDict.get it "content" "")))
      by reflexivity.
    rewrite !filter_cons, filter_nil; rewrite !E.
    destruct b; vm_compute; reflexivity.
  - unfold TDS_KNOWLEDGE_BASE, discourse_posts.
    set (b := PyStr.any_in discourse_question_keywords (PyStr.lower q)).
    assert (E : forall it, matches discourse_question_keywords discourse_content_keywords
                     (PyStr.lower q) it
                   = b && PyStr.any_in discourse_content_keywords
                            (PyStr.lower (PyDict.get it "content" "")))
      by reflexivity.
    rewrite !filter_cons, filter_nil; rewrite !E.
    destruct b; vm_compute; reflexivity.
Qed.

Example search_model_question :
  search_knowledge_base "Which model should I use for the API assignment?"
  = Ok [course_item_1; course_item_2; course_item_3; discourse_item_1].
Proof. rewrite search_knowledge_base_eq. reflexivity. Qed.

Example search_unrelated_question :
  search_knowledge_base "When is the exam?" = Ok [].
Proof. rewrite search_knowledge_base_eq. reflexivity. Qed.

(** C7. For every question, [search_knowledge_base] against the static
    knowledge base returns exactly the course-content items that match (the
    question has a course keyword and the item's content has one), in the
    order of that collection, followed by the discourse items that match (the
    same test with the discourse keywords), in the order of theirs. The
    result being this function of the question and the static store, two
    calls give identical ordered results. *)
Theorem C7_search_deterministic_and_ordered (q : string) :
  let matched_course :=
    filter (fun it => matches course_question_keywords course_content_keywords
                        (PyStr.lower q) it = true)
      (course_content TDS_KNOWLEDGE_BASE) in
  let matched_discourse :=
    filter (fun it => matches discourse_question_keywords discourse_content_keywords
                        (PyStr.lower q) it = true)
      (discourse_posts TDS_KNOWLEDGE_BASE) in
  search_knowledge_base q = Ok (matched_course ++ matched_discourse)
  /\ matched_course `sublist_of` course_content TDS_KNOWLEDGE_BASE
  /\ matched_discourse `sublist_of` discourse_posts TDS_KNOWLEDGE_BASE
  /\ (forall first_call second_call,
        first_call = search_knowledge_base q ->
        second_call = search_knowledge_base q ->
        first_call = second_call
        /\ first_call = Ok (matched_course ++ matched_discourse)).
Proof.
  intros matched_course matched_discourse.
  assert (Heq : search_knowledge_base q = Ok (matched_course ++ matched_discourse)).
  { unfold search_knowledge_base, search_in.
    rewrite (search_loop_filter _ _ _ _ _ kb_course_has_content).
    cbn [mbind result_bind rbind].
    rewrite (search_loop_filter _ _ _ _ _ kb_discourse_has_content).
    reflexivity. }
  split; [exact Heq|].
  split; [apply sublist_filter|].
  split; [apply sublist_filter|].
  intros first_call second_call -> ->. split; [reflexivity | exact Heq].
Qed.

(** C9. A question that contains one of the course keywords, in any
    letter case, gets all three course-content items of the static
    knowledge base, and every course item's content has a content-side
    keyword. *)
Theorem C9_course_keyword_returns_all_course_items
    (q pre mid post kw : string) :
  In kw course_question_keywords ->
  q = pre +:+ mid +:+ post ->
  PyStr.lower mid = kw ->
  (exists from_discourse : list item,
     search_knowledge_base q
     = Ok ([course_item_1; course_item_2; course_item_3] ++ from_discourse))
  /\ Forall (fun it : item =>
               PyStr.any_in course_content_keywords
                 (PyStr.lower (PyDict.get it "content" "")) = true)
            (course_content TDS_KNOWLEDGE_BASE).
Proof.
  intros Hin -> Hmid. split.
  - rewrite search_knowledge_base_eq.
    assert (Hq : PyStr.any_in course_question_keywords
                   (PyStr.lower (pre +:+ mid +:+ post)) = true).
    { apply (any_in_intro _ kw); [assumption|].
      rewrite !lower_append, Hmid. apply contains_spec. now eexists _, _. }
    rewrite Hq. now eexists.
  - repeat constructor.
Qed.

Lemma C9_course_keyword_returns_all_course_items_witness :
  (exists from_discourse : list item,
     search_knowledge_base "Is FastAPI ok?"
     = Ok ([course_item_1; course_item_2; course_item_3] ++ from_discourse))
  /\ Forall (fun it : item =>
               PyStr.any_in course_content_keywords
                 (PyStr.lower (PyDict.get it "content" "")) = true)
            (course_content TDS_KNOWLEDGE_BASE).
Proof.
  apply (C9_course_keyword_returns_all_course_items
           "Is FastAPI ok?" "Is " "FastAPI" " ok?" "fastapi").
  - simpl. tauto.
  - reflexivity.
  - reflexivity.
Defined.

(** ** Link extractor *)

Lemma links_loop_eq (relevant_items : list item) (acc : list LinkResponse) :
  links_loop relevant_items acc
  = Ok (acc ++ map display_link (filter carries_url relevant_items)).
Proof.
  revert acc. induction relevant_items as [|it rest IH]; intros acc;
    cbn [links_loop].
  - now rewrite app_nil_r.
  - rewrite filter_cons. unfold PyDict.mem.
    destruct (decide (carries_url it)) as [[u Hu]|Hno].
    + rewrite Hu. unfold link_of_item, PyDict.getitem. rewrite Hu.
      cbn [mbind result_bind rbind]. rewrite IH, <- List.app_assoc.
      do 2 f_equal. cbn [map app]. f_equal.
      unfold display_link, PyDict.get. rewrite Hu.
      now destruct (it !! "title"), (it !! "content").
    + destruct (it !! "url") eqn:Hu; [|apply IH].
      exfalso. apply Hno. now exists s.
Qed.

Example links_for_model_question :
  get_relevant_links [course_item_1; course_item_2; course_item_3; discourse_item_1]
  = Ok [{| url := "https://discourse.onlinedegree.iitm.ac.in/t/ga5-question-8-clarification/155939/4";
           text := "GA5 Question 8 Clarification" |}].
Proof. vm_compute. reflexivity. Qed.

Lemma get_relevant_links_eq (relevant_items : list item) :
  get_relevant_links relevant_items
  = Ok match filter carries_url relevant_items with
       | [] => [default_link]
       | url_items => take 3 (map display_link url_items)
       end.
Proof.
  unfold get_relevant_links. rewrite links_loop_eq.
  cbn [mbind result_bind rbind app].
  now destruct (filter carries_url relevant_items).
Qed.

Lemma get_relevant_links_length (relevant_items : list item) (lks : list LinkResponse) :
  get_relevant_links relevant_items = Ok lks -> 1 <= length lks <= 3.
Proof.
  rewrite get_relevant_links_eq. intros [= <-].
  destruct (filter carries_url relevant_items) as [|it rest]; [cbn; lia|].
  cbn [map take length]. destruct (map display_link rest) as [|l1 [|l2 rest']];
    cbn [take length]; rewrite ?length_take; lia.
Qed.

(** C5. [get_relevant_links] returns at most 3 pairs: the single default
    pair when no matched item has a ["url"] key, and otherwise one pair per
    item that has one, in order, cut to the first 3, whose text is the
    item's title if present and else the first 100 characters of its
    content. *)
Theorem C5_links_at_most_three (relevant_items : list item) :
  exists lks : list LinkResponse,
    get_relevant_links relevant_items = Ok lks
    /\ length lks <= 3
    /\ lks = match filter carries_url relevant_items with
             | [] => [default_link]
             | url_items => take 3 (map display_link url_items)
             end.
Proof.
  eexists. split; [apply get_relevant_links_eq|]. split; [|reflexivity].
  eapply get_relevant_links_length, get_relevant_links_eq.
Qed.

(** ** Answer composer *)

Lemma fallback_answer_nonempty (relevant_items : list item) :
  fallback_answer relevant_items <> "".
Proof. destruct relevant_items; discriminate. Qed.

Lemma generate_answer_except_eq (relevant_items : list item) :
  generate_answer_except relevant_items = Ok (fallback_answer relevant_items).
Proof.
  destruct relevant_items as [|first rest]; [reflexivity|].
  unfold generate_answer_except, PyDict.get. cbn.
  now destruct (first !! "content").
Qed.

(** What [generate_answer] returns, whatever the language model does. *)
Lemma generate_answer_eq (llm : language_model) (q : string)
    (relevant_items : list item) (image_description : option string) :
  generate_answer llm q relevant_items image_description
  = Ok match llm (build_prompt q (context_of relevant_items) image_description) with
       | Ok reply => PyStr.strip reply
       | Raise _ => fallback_answer relevant_items
       end.
Proof.
  unfold generate_answer, generate_answer_try. fold (context_of relevant_items).
  destruct (llm _); cbn [mbind result_bind rbind]; [reflexivity|].
  apply generate_answer_except_eq.
Qed.

(** C4. When the call to the external model fails, [generate_answer] does
    not raise: with at least one matched item it returns the template around
    the first item's content, with none it returns the apology, and what it
    returns is not empty. *)
Theorem C4_generate_answer_fallback (llm : language_model) (q : string)
    (relevant_items : list item) (image_description : option string)
    (e : exn) :
  llm (build_prompt q (context_of relevant_items) image_description) = Raise e ->
  generate_answer llm q relevant_items image_description
  = Ok match relevant_items with
       | first :: _ =>
           "Based on course materials: "
             +:+ default fallback_default_content (first !! "content")
       | [] => apology
       end
  /\ forall a, generate_answer llm q relevant_items image_description = Ok a ->
               a <> "".
Proof.
  intros Hfail. rewrite generate_answer_eq, Hfail. split; [reflexivity|].
  intros a [= <-]. apply fallback_answer_nonempty.
Qed.

Lemma C4_generate_answer_fallback_witness :
  generate_answer (fun _ => Raise OpenAIError) "Which model?" [course_item_1] None
  = Ok ("Based on course materials: "
          +:+ default fallback_default_content (course_item_1 !! "content"))
  /\ forall a,
       generate_answer (fun _ => Raise OpenAIError) "Which model?" [course_item_1] None
       = Ok a -> a <> "".
Proof.
  apply (C4_generate_answer_fallback
           (fun _ => Raise OpenAIError) "Which model?" [course_item_1] None OpenAIError).
  reflexivity.
Defined.

(** ** Request handler *)

(** The handler never takes its [except] branch: each step returns. *)
Lemma answer_question_eq (ext : services) (request : QuestionRequest) :
  exists (relevant_items : list item) (lks : list LinkResponse),
    search_knowledge_base (question request) = Ok relevant_items
    /\ get_relevant_links relevant_items = Ok lks
    /\ 1 <= length lks <= 3
    /\ answer_question ext request
       = Http200 {| answer :=
                      match llm ext (prompt_of ext request relevant_items) with
                      | Ok reply => PyStr.strip reply
                      | Raise _ => fallback_answer relevant_items
                      end;
                    links := lks |}.
Proof.
  unfold answer_question, answer_question_try.
  fold (image_description_of ext request).
  rewrite search_knowledge_base_eq.
  set (relevant_items := _ ++ _).
  pose proof (get_relevant_links_eq relevant_items) as Hl.
  eexists relevant_items, _. split; [reflexivity|]. split; [exact Hl|].
  split; [exact (get_relevant_links_length _ _ Hl)|].
  cbn [mbind result_bind rbind]. rewrite generate_answer_eq, Hl.
  reflexivity.
Qed.

Example model_question_when_model_fails :
  answer_question {| llm := failing_model; pil := no_image |}
    {| question := "Which model should I use for the API assignment?"; image := None |}
  = Http200
      {| answer := "Based on course materials: For TDS assignments, you must use gpt-3.5-turbo-0125 model specifically, even if AI Proxy supports other models like gpt-4o-mini. Use OpenAI API directly when required.";
         links := [{| url := "https://discourse.onlinedegree.iitm.ac.in/t/ga5-question-8-clarification/155939/4";
                      text := "GA5 Question 8 Clarification" |}] |}.
Proof. vm_compute. reflexivity. Qed.



(** C1, as stated, fails: a body whose question is the empty string is
    not rejected. *)
Lemma C1_empty_question_counterexample :
  ~ (forall (ext : services) (b : request_body),
       body_question b = Some "" -> post_api ext b = Http422).
Proof.
  intros H.
  specialize (H {| llm := failing_model; pil := no_image |}
                {| body_question := Some ""; body_image := None |} eq_refl).
  vm_compute in H. discriminate H.
Qed.

(** C1, amended. A POST whose question is the empty string is accepted and
    processed like any other: nothing matches, so the links are the single
    default link, and the answer is the language model's stripped reply, or
    the apology when the call fails. Only a body without a question is
    rejected as invalid. *)
Theorem C1_empty_question_is_processed
    (ext : services) (body_image : option string) :
  let request := {| question := ""; image := body_image |} in
  post_api ext {| body_question := Some ""; body_image := body_image |}
  = Http200 {| answer := match llm ext (prompt_of ext request []) with
                         | Ok reply => PyStr.strip reply
                         | Raise _ => apology
                         end;
               links := [default_link] |}
  /\ post_api ext {| body_question := None; body_image := body_image |} = Http422.
Proof.
  intros request. split; [|reflexivity].
  unfold post_api, validate. cbn [body_question].
  change {| question := ""; image := _ |} with request.
  destruct (answer_question_eq ext request)
    as (relevant_items & lks & Hs & Hl & _ & ->).
  rewrite search_knowledge_base_eq in Hs. vm_compute in Hs.
  injection Hs as <-. vm_compute in Hl. injection Hl as <-.
  reflexivity.
Qed.

(** ** HTML cleaner *)

Section HtmlFacts.

Import Html.






End HtmlFacts.

Example clean_html_empty : clean_html "" = "".
Proof. reflexivity. Qed.

Example clean_html_pre_and_quote :
  clean_html "<blockquote>said <b>x</b></blockquote>Hi <pre>a
b</pre><br>there"
  = "Hi there".
Proof. vm_compute. reflexivity. Qed.



(** ** Forum client: one topic *)

Section TopicDetails.

Import Scraper.

Lemma bind_Ok {A B : Type} (m : result A) (k : A -> result B) (b : B) :
  m ≫= k = Ok b -> exists a, m = Ok a /\ k a = Ok b.
Proof. destruct m as [a|e]; cbn; [eauto | discriminate]. Qed.

Lemma replies_loop_spec (posts : list json) (acc replies : list Reply) :
  replies_loop posts acc = Ok replies ->
  exists new, replies = acc ++ new
              /\ Forall2 (fun r post => reply_of post = Ok r) new posts.
Proof.
  revert acc. induction posts as [|post rest IH]; intros acc; cbn [replies_loop].
  - intros [= <-]. exists []. now rewrite app_nil_r.
  - intros H.
    apply bind_Ok in H as (cooked & Hcooked & H).
    apply bind_Ok in H as (content & Hcontent & H).
    apply bind_Ok in H as (author & Hauthor & H).
    apply bind_Ok in H as (created & Hcreated & H).
    apply IH in H as (new & -> & Hnew).
    eexists (_ :: new). split; [now rewrite <- List.app_assoc|].
    constructor; [|exact Hnew].
    unfold reply_of. rewrite Hcooked. cbn [mbind result_bind rbind].
    rewrite Hcontent. cbn [mbind result_bind rbind].
    rewrite Hauthor. cbn [mbind result_bind rbind].
    rewrite Hcreated. reflexivity.
Qed.

(** What a successful [scrape_topic_details] was built from. *)
Lemma topic_details_of_Some (f : forum) (base_url : string) (topic_id : json)
    (p : ScrapedPost) :
  topic_details_of base_url topic_id (get_topic f topic_id) = Ok (Some p) ->
  exists posts : list json,
    topic_posts f topic_id = Ok (JArr posts)
    /\ post_id p = topic_id
    /\ Forall2 (fun r post => reply_of post = Ok r)
         (post_replies p) (take 4 (drop 1 posts)).
Proof.
  unfold topic_details_of, topic_posts. intros H.
  apply bind_Ok in H as (response & -> & H). cbn [mbind result_bind rbind].
  destruct (negb (status_code response =? 200)%Z); [discriminate|].
  apply bind_Ok in H as (data & -> & H). cbn [mbind result_bind rbind].
  apply bind_Ok in H as (post_stream & -> & H). cbn [mbind result_bind rbind].
  apply bind_Ok in H as (posts & -> & H).
  destruct (negb (Py.truthy posts)); [discriminate|].
  apply bind_Ok in H as (main_post & Hmain & H).
  apply bind_Ok in H as (title & _ & H).
  apply bind_Ok in H as (cooked & Hcooked & H).
  apply bind_Ok in H as (content & _ & H).
  apply bind_Ok in H as (created & _ & H).
  apply bind_Ok in H as (author & _ & H).
  apply bind_Ok in H as (tail & Htail & H).
  apply bind_Ok in H as (tail_posts & Hiter & H).
  apply bind_Ok in H as (replies & Hreplies & H).
  injection H as <-. cbn [post_id post_replies].
  destruct posts as [| | |s|l|fields]; try discriminate.
  - (* a string: its first character has no [get] *)
    cbn in Hmain. destruct (Py.chars s !! 0) as [c|] eqn:Hc; [|discriminate].
    injection Hmain as <-. destruct s; [discriminate|].
    injection Hc as <-. discriminate.
  - exists l. split; [reflexivity|]. split; [reflexivity|].
    injection Htail as <-. injection Hiter as <-.
    apply replies_loop_spec in Hreplies as (new & -> & Hnew). exact Hnew.
Qed.

Lemma scrape_topic_details_log (f : forum) (base_url : string)
    (topic_id : json) (log : list request) :
  scrape_topic_details f base_url topic_id log
  = (log ++ [GetTopic topic_id],
     (scrape_topic_details f base_url topic_id []).2).
Proof.
  unfold scrape_topic_details.
  now destruct (topic_details_of base_url topic_id (get_topic f topic_id)).
Qed.

End TopicDetails.

(** C6. The replies of a [ScrapedPost] built by [scrape_topic_details] are
    at most 4, and they are the replies made from the posts at positions 1
    to 4 of the topic's post stream, in order, however long the stream. *)
Theorem C6_at_most_four_replies (f : Scraper.forum) (base_url : string)
    (topic_id : json) (log log' : list Scraper.request) (p : Scraper.ScrapedPost) :
  Scraper.scrape_topic_details f base_url topic_id log = (log', Some p) ->
  exists posts : list json,
    topic_posts f topic_id = Ok (JArr posts)
    /\ length (Scraper.post_replies p) <= 4
    /\ length (Scraper.post_replies p) = Nat.min 4 (length posts - 1)
    /\ forall i : nat,
         i < length (Scraper.post_replies p) ->
         exists r post,
           Scraper.post_replies p !! i = Some r
           /\ posts !! (i + 1) = Some post
           /\ i + 1 <= 4
           /\ reply_of post = Ok r.
Proof.
  unfold Scraper.scrape_topic_details. intros H.
  destruct (Scraper.topic_details_of base_url topic_id (Scraper.get_topic f topic_id))
    as [[p'|]|e] eqn:E; try discriminate.
  injection H as _ <-.
  apply topic_details_of_Some in E as (posts & Hposts & _ & Hall).
  exists posts. split; [exact Hposts|].
  pose proof (Forall2_length _ _ _ Hall) as Hlen.
  rewrite length_take, length_drop in Hlen.
  split; [lia|]. split; [lia|].
  intros i Hi.
  destruct (lookup_lt_is_Some_2 (Scraper.post_replies p') i Hi) as [r Hr].
  destruct (Forall2_lookup_l _ _ _ _ _ Hall Hr) as (post & Hpost & Hreply).
  exists r, post. split; [exact Hr|].
  apply lookup_take_Some in Hpost as [Hpost Hi4].
  rewrite lookup_drop in Hpost. rewrite Nat.add_comm.
  split; [exact Hpost|]. split; [lia | exact Hreply].
Qed.

(** ** Scrape orchestrator *)

Section Orchestrator.

Import Scraper.

Lemma listing_pages_app (l1 l2 : list request) :
  listing_pages (l1 ++ l2) = listing_pages l1 ++ listing_pages l2.
Proof. apply omap_app. Qed.

Lemma while_pages_unfold (f : forum) (base_url : string) (category_id : Z)
    (start_dt end_dt : date) (page : Z) (posts : list ScrapedPost)
    (log : list request) :
  while_pages f base_url category_id start_dt end_dt page posts log
  = if Z_lt_dec page 10 then
      match scrape_page f base_url category_id start_dt end_dt page posts log with
      | (log', Raise e) => (log', Raise e)
      | (log', Ok (Break posts')) => (log', Ok posts')
      | (log', Ok (Continue posts')) =>
          while_pages f base_url category_id start_dt end_dt (page + 1) posts' log'
      end
    else (log, Ok posts).
Proof.
  simp while_pages. destruct (Z_lt_dec page 10) as [Hlt|Hge]; cbn; [|reflexivity].
  destruct (scrape_page f base_url category_id start_dt end_dt page posts log)
    as [log' [[posts'|posts']|e]]; reflexivity.
Qed.

Variable f : forum.
Variable base_url : string.
Variables start_dt end_dt : date.

(** The loop over the topics of a page only issues topic requests. *)
Lemma topics_loop_log (topics : list json) (posts : list ScrapedPost)
    (log log' : list request) (r : result (list ScrapedPost)) :
  topics_loop f base_url start_dt end_dt topics posts log = (log', r) ->
  listing_pages log' = listing_pages log.
Proof.
  revert posts log. induction topics as [|topic rest IH]; intros posts log;
    cbn [topics_loop].
  - now intros [= <- _].
  - destruct (topic_created_at topic) as [created|e]; [|now intros [= <- _]].
    destruct (date_le start_dt created && date_le created end_dt); [|apply IH].
    destruct (Py.getitem topic "id") as [topic_id|e]; [|now intros [= <- _]].
    rewrite scrape_topic_details_log.
    destruct (scrape_topic_details f base_url topic_id []).2;
      intros H; apply IH in H; rewrite H, listing_pages_app; cbn;
      apply app_nil_r.
Qed.

(** Every post the loop adds was built for an in-range topic of the page. *)
Lemma topics_loop_posts (P : ScrapedPost -> Prop) (topics : list json)
    (posts posts' : list ScrapedPost) (log log' : list request) :
  (forall topic created topic_id p,
     In topic topics ->
     topic_created_at topic = Ok created ->
     within start_dt end_dt created = true ->
     Py.getitem topic "id" = Ok topic_id ->
     post_id p = topic_id ->
     topic_details_of base_url topic_id (get_topic f topic_id) = Ok (Some p) ->
     P p) ->
  Forall P posts ->
  topics_loop f base_url start_dt end_dt topics posts log = (log', Ok posts') ->
  Forall P posts'.
Proof.
  revert posts log. induction topics as [|topic rest IH]; intros posts log HP Hposts;
    cbn [topics_loop].
  - now intros [= _ <-].
  - assert (HP' : forall topic' created topic_id p,
               In topic' rest ->
               topic_created_at topic' = Ok created ->
               within start_dt end_dt created = true ->
               Py.getitem topic' "id" = Ok topic_id ->
               post_id p = topic_id ->
               topic_details_of base_url topic_id (get_topic f topic_id) = Ok (Some p) ->
               P p)
      by (intros; eapply HP; eauto; now right).
    destruct (topic_created_at topic) as [created|e] eqn:Hc; [|discriminate].
    destruct (date_le start_dt created && date_le created end_dt) eqn:Hin;
      [|now apply IH].
    destruct (Py.getitem topic "id") as [topic_id|e] eqn:Hid; [|discriminate].
    unfold scrape_topic_details.
    destruct (topic_details_of base_url topic_id (get_topic f topic_id))
      as [[p|]|e] eqn:Hd; try (now apply IH).
    apply IH; [exact HP'|]. apply Forall_app. split; [exact Hposts|].
    constructor; [|constructor].
    apply (HP topic created topic_id p); auto; [now left|].
    now destruct (topic_details_of_Some _ _ _ _ Hd) as (_ & _ & Hpid & _).
Qed.

Variable category_id : Z.

Lemma scrape_page_log (page : Z) (posts : list ScrapedPost)
    (log log' : list request) (r : result turn) :
  scrape_page f base_url category_id start_dt end_dt page posts log = (log', r) ->
  listing_pages log' = listing_pages log ++ [page].
Proof.
  unfold scrape_page.
  assert (H1 : listing_pages (log ++ [GetCategory category_id page])
               = listing_pages log ++ [page])
    by now rewrite listing_pages_app.
  destruct (listing_topics (get_category f category_id page)) as [[topics|]|e];
    try (now intros [= <- _]).
  destruct (negb (Py.truthy topics)); [now intros [= <- _]|].
  destruct (Py.iter topics) as [l|e]; [|now intros [= <- _]].
  destruct (topics_loop f base_url start_dt end_dt l posts
              (log ++ [GetCategory category_id page])) as [log2 [posts'|e]] eqn:E;
    intros [= <- _]; apply topics_loop_log in E; congruence.
Qed.

Lemma scrape_page_posts (page : Z) (posts : list ScrapedPost)
    (log log' : list request) (t : turn) :
  (0 <= page < 10)%Z ->
  Forall (scraped_from f base_url category_id start_dt end_dt) posts ->
  scrape_page f base_url category_id start_dt end_dt page posts log = (log', Ok t) ->
  Forall (scraped_from f base_url category_id start_dt end_dt)
    match t with Break posts' => posts' | Continue posts' => posts' end.
Proof.
  intros Hpage Hposts. unfold scrape_page.
  destruct (listing_topics (get_category f category_id page))
    as [[topics|]|e] eqn:Hl; try discriminate; [|now intros [= _ <-]].
  destruct (negb (Py.truthy topics)); [now intros [= _ <-]|].
  destruct (Py.iter topics) as [l|e] eqn:Hi; [|discriminate].
  destruct (topics_loop f base_url start_dt end_dt l posts
              (log ++ [GetCategory category_id page])) as [log2 [posts'|e]] eqn:E;
    [|discriminate].
  intros [= _ <-].
  eapply topics_loop_posts; [|exact Hposts|exact E].
  intros topic created topic_id p Hin Hc Hw Hid Hpid Hd.
  exists page, topic, created, topic_id. repeat split; try assumption; try lia.
  now exists topics, l.
Qed.

(** The [while] loop from [page] on: it asks for the pages [page],
    [page + 1], ... and stops before page 10; the posts it returns come
    from listed, in-range topics. *)
Lemma while_pages_inv (n : nat) :
  forall (page : Z) (posts : list ScrapedPost) (log log' : list request)
         (r : result (list ScrapedPost)),
    Z.to_nat (10 - page) = n ->
    (0 <= page <= 10)%Z ->
    while_pages f base_url category_id start_dt end_dt page posts log = (log', r) ->
    (exists k : Z, (0 <= k)%Z /\ (page + k <= 10)%Z
                   /\ listing_pages log' = listing_pages log ++ seqZ page k)
    /\ (Forall (scraped_from f base_url category_id start_dt end_dt) posts ->
        forall posts', r = Ok posts' ->
        Forall (scraped_from f base_url category_id start_dt end_dt) posts').
Proof.
  induction n as [|n IH]; intros page posts log log' r Hn Hpage;
    rewrite while_pages_unfold; destruct (Z_lt_dec page 10) as [Hlt|Hge];
    try lia.
  - intros [= <- <-]. split.
    + exists 0%Z. rewrite app_nil_r. repeat split; lia.
    + now intros Hposts posts' [= <-].
  - destruct (scrape_page f base_url category_id start_dt end_dt page posts log)
      as [log1 [[posts1|posts1]|e]] eqn:E;
      pose proof (scrape_page_log _ _ _ _ _ E) as Hlog.
    + intros [= <- <-]. split.
      * exists 1%Z. rewrite Hlog. repeat split; lia.
      * intros Hposts posts' [= <-].
        apply (scrape_page_posts page posts log log1 (Break posts1)); auto; lia.
    + intros H. apply IH in H as [(k & Hk & Hle & Hpages) Hfrom]; try lia.
      split.
      * exists (k + 1)%Z. rewrite Hpages, Hlog, <- List.app_assoc.
        repeat split; try lia. f_equal.
        rewrite (seqZ_cons page (k + 1)) by lia.
        now replace (Z.succ page) with (page + 1)%Z by lia;
          replace (Z.pred (k + 1)) with k by lia.
      * intros Hposts. apply Hfrom.
        apply (scrape_page_posts page posts log log1 (Continue posts1)); auto; lia.
    + intros [= <- <-]. split.
      * exists 1%Z. rewrite Hlog. repeat split; lia.
      * discriminate.
Qed.

End Orchestrator.

Example scrape_one_page :
  Scraper.scrape_discourse_posts
    (one_page_forum [topic_7; topic_old; topic_8; topic_9])
    base "2025-01-01" "2025-04-14" 123 []
  = ([Scraper.GetCategory 123 0; Scraper.GetTopic (JNum 7);
      Scraper.GetTopic (JNum 8); Scraper.GetTopic (JNum 9);
      Scraper.GetCategory 123 1],
     [post_7; post_9]).
Proof. vm_compute. reflexivity. Qed.

Example strptime_examples :
  Strptime.strptime "2025-04-14" = Ok {| year := 2025; month := 4; day := 14 |}
  /\ Strptime.strptime "2025-1-5" = Ok {| year := 2025; month := 1; day := 5 |}
  /\ Strptime.strptime "2025-02-30" = Raise ValueError
  /\ Strptime.strptime "2025-04-14T" = Raise ValueError
  /\ Strptime.strptime "yesterday" = Raise ValueError.
Proof. repeat split. Qed.

(** C2, as stated, fails: the date that is filtered is the one in the
    listing, while the [created_at] a [ScrapedPost] carries is copied from
    the first post of the topic's detail, and nothing compares the two. *)
Lemma C2_post_date_counterexample :
  ~ (forall (f : Scraper.forum) (base_url start_date end_date : string)
            (category_id : Z) (start_dt end_dt : date),
       Strptime.strptime start_date = Ok start_dt ->
       Strptime.strptime end_date = Ok end_dt ->
       Forall (fun p => exists d, post_created_date p = Ok d
                                  /\ within start_dt end_dt d = true)
         (Scraper.scrape_discourse_posts f base_url start_date end_date
            category_id []).2).
Proof.
  intros H.
  specialize (H (one_page_forum [topic_7]) base "2025-01-01" "2025-04-14" 123%Z
                _ _ eq_refl eq_refl).
  vm_compute in H. inversion H as [|p rest (d & Hd & Hin) _]; subst.
  injection Hd as <-. discriminate Hin.
Qed.

(** C2, amended. Every [ScrapedPost] that [scrape_discourse_posts] returns
    was built for a topic listed on one of the pages 0 to 9 whose creation
    date in the listing lies in [[start, end]] (the post's own [created_at]
    is whatever the topic's first post says), and one call requests at most
    10 listing pages, namely pages 0, 1, ... in order. *)
Theorem C2_listed_dates_in_range_at_most_ten_pages
    (f : Scraper.forum) (base_url start_date end_date : string)
    (category_id : Z) (log : list Scraper.request) :
  let run :=
    Scraper.scrape_discourse_posts f base_url start_date end_date category_id log in
  (exists k : Z, (0 <= k <= 10)%Z
                 /\ listing_pages run.1 = listing_pages log ++ seqZ 0 k)
  /\ Forall (fun p => exists start_dt end_dt,
                        Strptime.strptime start_date = Ok start_dt
                        /\ Strptime.strptime end_date = Ok end_dt
                        /\ scraped_from f base_url category_id start_dt end_dt p)
       run.2.
Proof.
  cbn zeta. unfold Scraper.scrape_discourse_posts, Scraper.scrape_discourse_posts_try.
  assert (Hnone : exists k : Z, (0 <= k <= 10)%Z
                    /\ listing_pages log = listing_pages log ++ seqZ 0 k)
    by (exists 0%Z; rewrite app_nil_r; split; [lia|reflexivity]).
  destruct (Strptime.strptime start_date) as [start_dt|e1]; [|now split].
  destruct (Strptime.strptime end_date) as [end_dt|e2]; [|now split].
  destruct (Scraper.while_pages f base_url category_id start_dt end_dt 0 [] log)
    as [log' r] eqn:E.
  apply (while_pages_inv f base_url start_dt end_dt category_id 10) in E
    as [(k & Hk & Hle & Hpages) Hfrom]; [|reflexivity|lia].
  destruct r as [posts|e]; cbn [fst snd].
  - split; [exists k; split; [lia|exact Hpages]|].
    specialize (Hfrom (List.Forall_nil _) posts eq_refl).
    eapply Forall_impl; [exact Hfrom|].
    intros p Hp. now exists start_dt, end_dt.
  - split; [exists k; split; [lia|exact Hpages]|constructor].
Qed.

(** *** Which failures skip a topic and which abort the scrape *)

Section Failures.

Import Scraper.

Variable f : forum.
Variable base_url : string.
Variables start_dt end_dt : date.

Lemma topics_loop_ok (topics : list json) (posts : list ScrapedPost)
    (log : list request) :
  forallb (entry_ok start_dt end_dt) topics = true ->
  topics_loop f base_url start_dt end_dt topics posts log
  = (log ++ map GetTopic (omap (selected_id start_dt end_dt) topics),
     Ok (posts ++ omap (assembled f base_url)
                    (omap (selected_id start_dt end_dt) topics))).
Proof.
  revert posts log. induction topics as [|topic rest IH]; intros posts log;
    cbn [topics_loop forallb].
  - intros _. cbn. now rewrite !app_nil_r.
  - intros H. apply andb_true_iff in H as [Hok Hrest].
    unfold entry_ok in Hok. cbn [omap list_omap].
    destruct (topic_created_at topic) as [created|e] eqn:Hc; [|discriminate].
    change (date_le start_dt created && date_le created end_dt)
      with (within start_dt end_dt created).
    destruct (within start_dt end_dt created) eqn:Hw.
    + destruct (Py.getitem topic "id") as [topic_id|e] eqn:Hid; [|discriminate].
      assert (Hsel : selected_id start_dt end_dt topic = Some topic_id)
        by (unfold selected_id; now rewrite Hc, Hw, Hid).
      rewrite Hsel, scrape_topic_details_log. fold (assembled f base_url topic_id).
      cbn [map omap list_omap].
      destruct (assembled f base_url topic_id) as [p|];
        rewrite IH by exact Hrest; now rewrite <- ?List.app_assoc.
    + assert (Hsel : selected_id start_dt end_dt topic = None)
        by (unfold selected_id; now rewrite Hc, Hw).
      rewrite Hsel. now apply IH.
Qed.

Lemma topics_loop_raise (topics : list json) (posts : list ScrapedPost)
    (log : list request) :
  forallb (entry_ok start_dt end_dt) topics = false ->
  exists log' e,
    topics_loop f base_url start_dt end_dt topics posts log = (log', Raise e).
Proof.
  revert posts log. induction topics as [|topic rest IH]; intros posts log;
    cbn [topics_loop forallb]; [discriminate|].
  unfold entry_ok at 1.
  destruct (topic_created_at topic) as [created|e]; [|now eexists _, _].
  change (date_le start_dt created && date_le created end_dt)
    with (within start_dt end_dt created).
  destruct (within start_dt end_dt created); [|apply IH].
  destruct (Py.getitem topic "id") as [topic_id|e]; [|now eexists _, _].
  cbn [andb]. rewrite scrape_topic_details_log.
  destruct (scrape_topic_details f base_url topic_id []).2; apply IH.
Qed.

End Failures.

(** The [while] loop, one turn unfolded. *)
Lemma while_pages_turn (f : Scraper.forum) (base_url : string) (category_id : Z)
    (start_dt end_dt : date) (page : Z) (posts : list Scraper.ScrapedPost)
    (log : list Scraper.request) :
  Scraper.while_pages f base_url category_id start_dt end_dt page posts log
  = if Z_lt_dec page 10 then
      match Scraper.scrape_page f base_url category_id start_dt end_dt page posts log with
      | (log', Raise e) => (log', Raise e)
      | (log', Ok (Scraper.Break posts')) => (log', Ok posts')
      | (log', Ok (Scraper.Continue posts')) =>
          Scraper.while_pages f base_url category_id start_dt end_dt (page + 1) posts' log'
      end
    else (log, Ok posts).
Proof. apply while_pages_unfold. Qed.

Section Outcome.

Import Scraper.

Variable f : forum.
Variable base_url : string.
Variables start_dt end_dt : date.
Variable category_id : Z.

(** Each way the detail fails gives [None]. *)
Lemma detail_failure_None (topic_id : json) :
  detail_failure f topic_id -> assembled f base_url topic_id = None.
Proof.
  unfold assembled, scrape_topic_details, topic_details_of.
  intros [e He|r Hr Hstatus|r e Hr Hbody|r data e Hr Hbody Hshape
          |r data posts Hr Hbody Hshape Hfalsy
          |r data posts e Hr Hbody Hshape Hfirst];
    rewrite ?He, ?Hr; cbn [mbind result_bind rbind snd]; try reflexivity.
  - destruct (status_code r =? 200)%Z eqn:E;
      [apply Z.eqb_eq in E; contradiction | reflexivity].
  - destruct (negb (status_code r =? 200)%Z); [reflexivity|].
    now rewrite Hbody.
  - destruct (negb (status_code r =? 200)%Z); [reflexivity|].
    rewrite Hbody. cbn [mbind result_bind rbind].
    destruct (Py.get data "post_stream" (JObj [])) as [post_stream|e1];
      cbn [mbind result_bind rbind] in Hshape |- *; [|reflexivity].
    now rewrite Hshape.
  - destruct (negb (status_code r =? 200)%Z); [reflexivity|].
    rewrite Hbody. cbn [mbind result_bind rbind].
    destruct (Py.get data "post_stream" (JObj [])) as [post_stream|e1];
      cbn [mbind result_bind rbind] in Hshape |- *; [|discriminate].
    rewrite Hshape. cbn [mbind result_bind rbind]. now rewrite Hfalsy.
  - destruct (negb (status_code r =? 200)%Z); [reflexivity|].
    rewrite Hbody. cbn [mbind result_bind rbind].
    destruct (Py.get data "post_stream" (JObj [])) as [post_stream|e1];
      cbn [mbind result_bind rbind] in Hshape |- *; [|discriminate].
    rewrite Hshape. cbn [mbind result_bind rbind].
    destruct (negb (Py.truthy posts)); [reflexivity|].
    destruct (Py.index posts 0) as [main_post|e2];
      cbn [mbind result_bind rbind] in Hfirst |- *; [|reflexivity].
    destruct (Py.get data "title" (JStr "")) as [title|e3];
      cbn [mbind result_bind rbind]; [|reflexivity].
    now rewrite Hfirst.
Qed.

(** The loop over a page's topics only returns when every entry is
    readable. *)
Lemma topics_loop_Ok_entries (topics : list json)
    (posts posts' : list ScrapedPost) (log log' : list request) :
  topics_loop f base_url start_dt end_dt topics posts log = (log', Ok posts') ->
  forallb (entry_ok start_dt end_dt) topics = true.
Proof.
  intros H. destruct (forallb (entry_ok start_dt end_dt) topics) eqn:E;
    [reflexivity|].
  destruct (topics_loop_raise f base_url start_dt end_dt topics posts log E)
    as (log2 & e & Hraise).
  congruence.
Qed.

(** One page that does not raise: its entries are readable and it adds the
    posts of its in-range topics. *)
Lemma scrape_page_exact (page : Z) (posts : list ScrapedPost)
    (log log' : list request) (t : turn) :
  scrape_page f base_url category_id start_dt end_dt page posts log = (log', Ok t) ->
  forallb (entry_ok start_dt end_dt) (page_topics f category_id page) = true
  /\ match t with Break posts' => posts' | Continue posts' => posts' end
     = posts ++ page_posts f base_url category_id start_dt end_dt page.
Proof.
  unfold scrape_page, page_posts, page_topics.
  destruct (listing_topics (get_category f category_id page))
    as [[topics|]|e]; try discriminate.
  - destruct (Py.truthy topics); cbn [negb].
    + destruct (Py.iter topics) as [l|e]; [|discriminate].
      destruct (topics_loop f base_url start_dt end_dt l posts
                  (log ++ [GetCategory category_id page]))
        as [log2 [posts'|e]] eqn:E; [|discriminate].
      intros [= _ <-].
      pose proof (topics_loop_Ok_entries _ _ _ _ _ E) as Hok.
      split; [exact Hok|].
      rewrite (topics_loop_ok f base_url start_dt end_dt _ _ _ Hok) in E.
      now injection E as _ <-.
    + intros [= _ <-]. split; [reflexivity|]. cbn. now rewrite app_nil_r.
  - intros [= _ <-]. split; [reflexivity|]. cbn. now rewrite app_nil_r.
Qed.

(** The [while] loop from [page] on, when it does not raise: the pages it
    asked for all had readable entries, and it returns the posts of their
    in-range topics, page after page. *)
Lemma while_pages_exact (n : nat) :
  forall (page : Z) (posts : list ScrapedPost) (log log' : list request)
         (r : result (list ScrapedPost)),
    Z.to_nat (10 - page) = n ->
    (0 <= page <= 10)%Z ->
    while_pages f base_url category_id start_dt end_dt page posts log = (log', r) ->
    exists k : Z,
      (0 <= k)%Z /\ (page + k <= 10)%Z
      /\ listing_pages log' = listing_pages log ++ seqZ page k
      /\ forall posts', r = Ok posts' ->
           posts' = posts ++ flat_map (page_posts f base_url category_id
                                         start_dt end_dt) (seqZ page k)
           /\ forall p, (page <= p < page + k)%Z ->
                forallb (entry_ok start_dt end_dt) (page_topics f category_id p)
                = true.
Proof.
  induction n as [|n IH]; intros page posts log log' r Hn Hpage;
    rewrite while_pages_turn; destruct (Z_lt_dec page 10) as [Hlt|Hge];
    try lia.
  - intros [= <- <-]. exists 0%Z. rewrite !app_nil_r.
    split; [lia|]. split; [lia|]. split; [reflexivity|].
    intros posts' [= <-]. cbn. rewrite ?app_nil_r.
    split; [reflexivity | intros p Hp; lia].
  - destruct (scrape_page f base_url category_id start_dt end_dt page posts log)
      as [log1 [[posts1|posts1]|e]] eqn:E;
      pose proof (scrape_page_log f base_url start_dt end_dt category_id
                    _ _ _ _ _ E) as Hlog.
    + intros [= <- <-]. exists 1%Z. rewrite Hlog.
      split; [lia|]. split; [lia|]. split; [reflexivity|].
      intros posts' [= <-].
      apply scrape_page_exact in E as [Hok Hposts]. cbn in Hposts.
      split.
      * assert (Hone : seqZ page 1 = [page])
          by (rewrite (seqZ_cons page 1) by lia; reflexivity).
        rewrite Hposts, Hone. cbn [flat_map]. now rewrite app_nil_r.
      * intros p Hp. now replace p with page by lia.
    + intros H. apply IH in H as (k & Hk & Hle & Hpages & Hres); try lia.
      apply scrape_page_exact in E as [Hok Hposts]. cbn in Hposts.
      exists (k + 1)%Z.
      assert (Hseq : seqZ page (k + 1) = page :: seqZ (page + 1) k).
      { rewrite (seqZ_cons page (k + 1)) by lia.
        now replace (Z.succ page) with (page + 1)%Z by lia;
          replace (Z.pred (k + 1)) with k by lia. }
      split; [lia|]. split; [lia|]. split.
      * rewrite Hpages, Hlog, <- List.app_assoc. f_equal. now rewrite Hseq.
      * intros posts' Hr. destruct (Hres posts' Hr) as [-> Hall]. split.
        -- rewrite Hposts, Hseq. cbn [flat_map]. now rewrite <- List.app_assoc.
        -- intros p Hp. destruct (Z.eq_dec p page) as [->|Hne]; [exact Hok|].
           apply Hall. lia.
    + intros [= <- <-]. exists 1%Z. rewrite Hlog.
      split; [lia|]. split; [lia|]. split; [reflexivity|]. discriminate.
Qed.

End Outcome.

(** C3, as stated, fails: an unparseable [created_at] in the listing does
    not skip that one topic. With it the scrape returns nothing; without it
    the same forum yields the post of the other topic. *)
Lemma C3_listing_failure_counterexample :
  (Scraper.scrape_discourse_posts (one_page_forum [topic_7; topic_undated])
     base "2025-01-01" "2025-04-14" 123 []).2 = []
  /\ (Scraper.scrape_discourse_posts (one_page_forum [topic_7])
        base "2025-01-01" "2025-04-14" 123 []).2 = [post_7].
Proof. split; vm_compute; reflexivity. Qed.

(** C3, amended. A failure on a topic's detail (the request raising, a
    status other than 200, malformed JSON, a missing or ill-shaped post
    stream) skips only that topic: [scrape_topic_details] gives [None], the
    loop over a page goes on and returns the posts assembled for the other
    in-range topics, in order; when nothing aborts it, the scrape returns
    these posts for all the pages it asked for. A failure on a listing entry
    itself (a missing or unparseable [created_at], or a missing [id] on an
    in-range topic), on whichever page the scrape reaches, aborts it: the
    result is the empty list. *)
Theorem C3_detail_failures_skip_listing_failures_abort
    (f : Scraper.forum) (base_url start_date end_date : string)
    (category_id : Z) (log : list Scraper.request) (start_dt end_dt : date) :
  Strptime.strptime start_date = Ok start_dt ->
  Strptime.strptime end_date = Ok end_dt ->
  let run :=
    Scraper.scrape_discourse_posts f base_url start_date end_date category_id log in
  (forall topic_id,
     detail_failure f topic_id -> assembled f base_url topic_id = None)
  /\ (forall topics posts log0,
        forallb (entry_ok start_dt end_dt) topics = true ->
        Scraper.topics_loop f base_url start_dt end_dt topics posts log0
        = (log0 ++ map Scraper.GetTopic (omap (selected_id start_dt end_dt) topics),
           Ok (posts ++ omap (assembled f base_url)
                          (omap (selected_id start_dt end_dt) topics))))
  /\ exists k : Z,
       (0 <= k <= 10)%Z
       /\ listing_pages run.1 = listing_pages log ++ seqZ 0 k
       /\ (forall page,
             (0 <= page < k)%Z ->
             forallb (entry_ok start_dt end_dt) (page_topics f category_id page)
             = false ->
             run.2 = [])
       /\ (forall log' posts,
             Scraper.scrape_discourse_posts_try f base_url start_date end_date
               category_id log = (log', Ok posts) ->
             run.2 = flat_map (page_posts f base_url category_id start_dt end_dt)
                       (seqZ 0 k)).
Proof.
  intros Hstart Hend run. split; [|split].
  - intros topic_id. apply detail_failure_None.
  - intros topics posts log0. apply topics_loop_ok.
  - subst run.
    unfold Scraper.scrape_discourse_posts, Scraper.scrape_discourse_posts_try.
    rewrite Hstart, Hend.
    destruct (Scraper.while_pages f base_url category_id start_dt end_dt 0 [] log)
      as [log1 r] eqn:E.
    apply (while_pages_exact f base_url start_dt end_dt category_id 10) in E
      as (k & Hk & Hle & Hpages & Hres); [|reflexivity|lia].
    exists k. split; [lia|]. split; [now destruct r|]. split.
    + intros page Hpage Hbad. destruct r as [posts|e]; [|reflexivity].
      destruct (Hres posts eq_refl) as [_ Hall].
      rewrite (Hall page) in Hbad by lia. discriminate Hbad.
    + intros log' posts [= _ ->]. cbn [snd].
      now destruct (Hres posts eq_refl) as [-> _].
Qed.

Lemma C3_detail_failures_skip_listing_failures_abort_witness :
  let f := one_page_forum [topic_7; topic_8; topic_9] in
  let start_dt := {| year := 2025; month := 1; day := 1 |} in
  let end_dt := {| year := 2025; month := 4; day := 14 |} in
  let run := Scraper.scrape_discourse_posts f base "2025-01-01" "2025-04-14" 123 [] in
  (forall topic_id,
     detail_failure f topic_id -> assembled f base topic_id = None)
  /\ (forall topics posts log0,
        forallb (entry_ok start_dt end_dt) topics = true ->
        Scraper.topics_loop f base start_dt end_dt topics posts log0
        = (log0 ++ map Scraper.GetTopic (omap (selected_id start_dt end_dt) topics),
           Ok (posts ++ omap (assembled f base)
                          (omap (selected_id start_dt end_dt) topics))))
  /\ exists k : Z,
       (0 <= k <= 10)%Z
       /\ listing_pages run.1 = listing_pages [] ++ seqZ 0 k
       /\ (forall page,
             (0 <= page < k)%Z ->
             forallb (entry_ok start_dt end_dt) (page_topics f 123 page) = false ->
             run.2 = [])
       /\ (forall log' posts,
             Scraper.scrape_discourse_posts_try f base "2025-01-01" "2025-04-14"
               123 [] = (log', Ok posts) ->
             run.2 = flat_map (page_posts f base 123 start_dt end_dt) (seqZ 0 k)).
Proof.
  intros f start_dt end_dt.
  apply (C3_detail_failures_skip_listing_failures_abort
           f base "2025-01-01" "2025-04-14" 123 [] start_dt end_dt).
  - reflexivity.
  - reflexivity.
Defined.

Example topic_8_detail_fails :
  detail_failure (one_page_forum [topic_7; topic_8; topic_9]) (JNum 8).
Proof. eapply bad_status; [reflexivity | discriminate]. Qed.

Example two_topics_of_three :
  (Scraper.scrape_discourse_posts (one_page_forum [topic_7; topic_8; topic_9])
     base "2025-01-01" "2025-04-14" 123 []).2
  = flat_map (page_posts (one_page_forum [topic_7; topic_8; topic_9]) base 123
                {| year := 2025; month := 1; day := 1 |}
                {| year := 2025; month := 4; day := 14 |}) [0; 1]%Z
  /\ flat_map (page_posts (one_page_forum [topic_7; topic_8; topic_9]) base 123
                 {| year := 2025; month := 1; day := 1 |}
                 {| year := 2025; month := 4; day := 14 |}) [0; 1]%Z
     = [post_7; post_9].
Proof. split; vm_compute; reflexivity. Qed.

Example topic_8_is_skipped :
  omap (assembled (one_page_forum [topic_7; topic_8; topic_9]) base)
    [JNum 7; JNum 8; JNum 9]
  = [post_7; post_9].
Proof. vm_compute. reflexivity. Qed.

Lemma C6_at_most_four_replies_witness :
  exists posts : list json,
    topic_posts (one_page_forum [topic_7]) (JNum 7) = Ok (JArr posts)
    /\ length (Scraper.post_replies post_7) <= 4
    /\ length (Scraper.post_replies post_7) = Nat.min 4 (length posts - 1)
    /\ forall i : nat,
         i < length (Scraper.post_replies post_7) ->
         exists r post,
           Scraper.post_replies post_7 !! i = Some r
           /\ posts !! (i + 1) = Some post
           /\ i + 1 <= 4
           /\ reply_of post = Ok r.
Proof.
  apply (C6_at_most_four_replies (one_page_forum [topic_7]) base (JNum 7)
           [] [Scraper.GetTopic (JNum 7)] post_7).
  vm_compute. reflexivity.
Defined.

(* ===================================================================== *)
(** * Further properties of the code *)
(* ===================================================================== *)

(** ** The service *)

Lemma any_in_false (kws : list string) (s : string) :
  PyStr.any_in kws s = false
  <-> forall kw, In kw kws -> PyStr.contains kw s = false.
Proof.
  unfold PyStr.any_in. split.
  - intros H kw Hin. destruct (PyStr.contains kw s) eqn:E; [|reflexivity].
    assert (Ht : existsb (fun kw => PyStr.contains kw s) kws = true)
      by (apply existsb_exists; now exists kw).
    congruence.
  - intros H. destruct (existsb _ kws) eqn:E; [|reflexivity].
    apply existsb_exists in E as (kw & Hin & Hc). rewrite (H kw Hin) in Hc.
    discriminate.
Qed.

(** X1. The matcher returns nothing exactly when the lower-cased question
    contains none of the ten trigger keywords. *)
Theorem X1_search_empty_iff_no_keyword (q : string) :
  search_knowledge_base q = Ok []
  <-> forall kw,
        In kw (course_question_keywords ++ discourse_question_keywords) ->
        PyStr.contains kw (PyStr.lower q) = false.
Proof.
  rewrite search_knowledge_base_eq. split.
  - intros H kw Hin. apply in_app_or in Hin as [Hin|Hin].
    + destruct (PyStr.any_in course_question_keywords (PyStr.lower q)) eqn:E;
        [discriminate H|].
      now apply (proj1 (any_in_false _ _) E).
    + destruct (PyStr.any_in discourse_question_keywords (PyStr.lower q)) eqn:E.
      * destruct (PyStr.any_in course_question_keywords (PyStr.lower q));
          discriminate H.
      * now apply (proj1 (any_in_false _ _) E).
  - intros H.
    assert (H1 : PyStr.any_in course_question_keywords (PyStr.lower q) = false)
      by (apply any_in_false; intros kw Hin; apply H, in_or_app; now left).
    assert (H2 : PyStr.any_in discourse_question_keywords (PyStr.lower q) = false)
      by (apply any_in_false; intros kw Hin; apply H, in_or_app; now right).
    now rewrite H1, H2.
Qed.

(** On any store: what one loop of the matcher does when an item has no
    ["content"] key. *)
Lemma search_loop_missing_content (question_kws content_kws : list string)
    (question_lower : string) (collection acc : list item) :
  PyStr.any_in question_kws question_lower = true ->
  ~ Forall has_content collection ->
  search_loop question_kws content_kws question_lower collection acc
  = Raise KeyError.
Proof.
  intros Hq. revert acc. induction collection as [|it rest IH]; intros acc Hnot.
  - exfalso. apply Hnot. constructor.
  - cbn [search_loop]. rewrite Hq. unfold PyDict.getitem.
    destruct (it !! "content") as [c|] eqn:Hc; [|reflexivity].
    cbn [mbind result_bind rbind].
    assert (Hrest : ~ Forall has_content rest).
    { intros Hall. apply Hnot. constructor; [now exists c | exact Hall]. }
    destruct (PyStr.any_in content_kws (PyStr.lower c)); now apply IH.
Qed.

Lemma search_loop_no_trigger (question_kws content_kws : list string)
    (question_lower : string) (collection acc : list item) :
  PyStr.any_in question_kws question_lower = false ->
  search_loop question_kws content_kws question_lower collection acc = Ok acc.
Proof.
  intros Hq. induction collection as [|it rest IH]; cbn [search_loop];
    [reflexivity|]. now rewrite Hq.
Qed.

(** X2. On an arbitrary knowledge base, a question with a course trigger
    keyword makes the matcher read ["content"] of every course item: if one
    of them lacks the key the search raises [KeyError]. *)
Theorem X2_search_missing_content_raises (kb : knowledge_base) (q : string) :
  mentions course_question_keywords q = true ->
  ~ Forall has_content (course_content kb) ->
  search_in kb q = Raise KeyError.
Proof.
  unfold mentions, search_in. intros H1 Hnot.
  now rewrite (search_loop_missing_content _ _ _ _ _ H1 Hnot).
Qed.

Lemma X2_search_missing_content_raises_witness :
  search_in store_without_content "which API?" = Raise KeyError.
Proof.
  apply (X2_search_missing_content_raises store_without_content "which API?").
  - reflexivity.
  - intros H. inversion H as [|it rest [c Hc] _]; subst.
    vm_compute in Hc. discriminate Hc.
Defined.

(** X3. On an arbitrary knowledge base, a question without any trigger
    keyword never reads the items: the search returns the empty list even
    when items lack ["content"]. *)
Theorem X3_search_without_trigger_reads_nothing (kb : knowledge_base) (q : string) :
  mentions course_question_keywords q = false ->
  mentions discourse_question_keywords q = false ->
  search_in kb q = Ok [].
Proof.
  unfold mentions, search_in. intros H1 H2.
  rewrite (search_loop_no_trigger _ _ _ _ _ H1).
  cbn [mbind result_bind rbind]. now apply search_loop_no_trigger.
Qed.

Lemma X3_search_without_trigger_reads_nothing_witness :
  search_in store_without_content "When is the exam?" = Ok [].
Proof.
  apply (X3_search_without_trigger_reads_nothing store_without_content
           "When is the exam?"); reflexivity.
Defined.

(** The matched items for a question, by the two question-side tests. *)
Lemma search_knowledge_base_mentions (q : string) :
  search_knowledge_base q
  = Ok ((if mentions course_question_keywords q
         then [course_item_1; course_item_2; course_item_3] else [])
        ++ (if mentions discourse_question_keywords q
            then [discourse_item_1] else [])).
Proof. apply search_knowledge_base_eq. Qed.

Lemma kb_url_items (a b : bool) :
  filter carries_url
    ((if a then [course_item_1; course_item_2; course_item_3] else [])
     ++ (if b then [discourse_item_1] else []))
  = if b then [discourse_item_1] else [].
Proof.
  assert (Hc : forall it, In it [course_item_1; course_item_2; course_item_3] ->
                          ~ carries_url it).
  { intros it Hin [u Hu]. cbn in Hin.
    destruct Hin as [<-|[<-|[<-|[]]]]; vm_compute in Hu; discriminate Hu. }
  assert (Hd : carries_url discourse_item_1) by (eexists; vm_compute; reflexivity).
  rewrite filter_app.
  assert (H1 : filter carries_url
                 (if a then [course_item_1; course_item_2; course_item_3] else [])
               = []).
  { destruct a; [|reflexivity].
    rewrite !filter_cons_False, filter_nil; [reflexivity|..];
      apply Hc; cbn; tauto. }
  rewrite H1. destruct b; [|reflexivity].
  now rewrite filter_cons_True, filter_nil by exact Hd.
Qed.

Lemma kb_links (a b : bool) :
  get_relevant_links
    ((if a then [course_item_1; course_item_2; course_item_3] else [])
     ++ (if b then [discourse_item_1] else []))
  = Ok (if b then [ga5_link] else [default_link]).
Proof.
  rewrite get_relevant_links_eq, kb_url_items. now destruct b.
Qed.

(** X4. Whatever the question, the image and the external services, the
    handler returns exactly one link, and which one depends on the question
    alone: the GA5 discourse link when the question has a discourse trigger
    keyword (question, clarification, api, model), the default forum link
    otherwise. *)
Theorem X4_exactly_one_link (ext : services) (request : QuestionRequest) :
  exists a : string,
    answer_question ext request
    = Http200 {| answer := a;
                 links := if mentions discourse_question_keywords (question request)
                          then [ga5_link] else [default_link] |}.
Proof.
  destruct (answer_question_eq ext request)
    as (relevant_items & lks & Hs & Hl & _ & ->).
  eexists. do 2 f_equal.
  rewrite search_knowledge_base_mentions in Hs. injection Hs as <-.
  rewrite kb_links in Hl. injection Hl as <-. reflexivity.
Qed.

Lemma kb_fallback (a b : bool) :
  fallback_answer
    ((if a then [course_item_1; course_item_2; course_item_3] else [])
     ++ (if b then [discourse_item_1] else []))
  = if a then template_answer course_item_1
    else if b then template_answer discourse_item_1 else apology.
Proof. now destruct a, b. Qed.

(** X5. While the language model is down the service has three possible
    answers: the template around the first course item for a question with a
    course trigger keyword, else the template around the GA5 discourse post
    for a question with a discourse trigger keyword, else the apology. *)
Theorem X5_three_fallback_answers (ext : services) (request : QuestionRequest) :
  model_down (llm ext) ->
  exists lks : list LinkResponse,
    answer_question ext request
    = Http200 {| answer :=
                   if mentions course_question_keywords (question request)
                   then template_answer course_item_1
                   else if mentions discourse_question_keywords (question request)
                        then template_answer discourse_item_1
                        else apology;
                 links := lks |}.
Proof.
  intros Hdown.
  destruct (answer_question_eq ext request)
    as (relevant_items & lks & Hs & _ & _ & ->).
  exists lks. do 2 f_equal.
  destruct (Hdown (prompt_of ext request relevant_items)) as [e ->].
  rewrite search_knowledge_base_mentions in Hs. injection Hs as <-.
  apply kb_fallback.
Qed.

Lemma X5_three_fallback_answers_witness :
  exists lks : list LinkResponse,
    answer_question {| llm := failing_model; pil := no_image |}
      {| question := "Need a clarification"; image := None |}
    = Http200 {| answer := template_answer discourse_item_1; links := lks |}.
Proof.
  apply (X5_three_fallback_answers {| llm := failing_model; pil := no_image |}
           {| question := "Need a clarification"; image := None |}).
  intros prompt. now exists OpenAIError.
Defined.

Lemma take_length_le (n : nat) (s : string) : String.length (PyStr.take n s) <= n.
Proof.
  revert s. induction n as [|n IH]; intros [|c s]; cbn; try lia.
  specialize (IH s). lia.
Qed.

Lemma take_startswith (n : nat) (s : string) :
  PyStr.startswith (PyStr.take n s) s = true.
Proof.
  revert s. induction n as [|n IH]; intros [|c s]; cbn; try reflexivity.
  now rewrite Ascii.eqb_refl.
Qed.

(** X6. Every link [get_relevant_links] returns is the default link or
    belongs to one of the given items that has a ["url"]: it carries that
    url, and its text is the item's title, or for an item without a title a
    prefix of its content of at most 100 characters. *)
Theorem X6_link_text (relevant_items : list item) (lks : list LinkResponse) :
  get_relevant_links relevant_items = Ok lks ->
  Forall (fun l =>
            l = default_link
            \/ exists it : item,
                 In it relevant_items
                 /\ it !! "url" = Some (url l)
                 /\ match it !! "title" with
                    | Some t => text l = t
                    | None =>
                        String.length (text l) <= 100
                        /\ PyStr.startswith (text l) (default "" (it !! "content"))
                           = true
                    end) lks.
Proof.
  rewrite get_relevant_links_eq. intros [= <-].
  assert (Hall : Forall (fun it => In it relevant_items /\ carries_url it)
                   (filter carries_url relevant_items)).
  { apply Forall_forall. intros it Hit.
    apply list_elem_of_filter in Hit as [Hurl Hin].
    split; [now apply list_elem_of_In | exact Hurl]. }
  destruct (filter carries_url relevant_items) as [|it0 url_items].
  - constructor; [now left | constructor].
  - change (Forall ?P _)
      with (Forall P (take 3 (map display_link (it0 :: url_items)))).
    apply Forall_take, Forall_map.
    eapply List.Forall_impl; [|exact Hall].
    intros it [Hin [u Hu]]. right. exists it. split; [exact Hin|].
    unfold display_link. cbn [url text]. rewrite Hu. split; [reflexivity|].
    destruct (it !! "title"); [reflexivity|].
    split; [apply take_length_le | apply take_startswith].
Qed.

Lemma X6_link_text_witness :
  Forall (fun l =>
            l = default_link
            \/ exists it : item,
                 In it [course_item_1; discourse_item_1]
                 /\ it !! "url" = Some (url l)
                 /\ match it !! "title" with
                    | Some t => text l = t
                    | None =>
                        String.length (text l) <= 100
                        /\ PyStr.startswith (text l) (default "" (it !! "content"))
                           = true
                    end) [ga5_link].
Proof.
  apply (X6_link_text [course_item_1; discourse_item_1] [ga5_link]).
  vm_compute. reflexivity.
Defined.

(** ** Trimming *)

Lemma lstrip_starts (s : string) : starts_with_space (PyStr.lstrip s) = false.
Proof.
  induction s as [|c s IH]; cbn; [reflexivity|].
  destruct (PyStr.is_space c) eqn:E; [exact IH | cbn; exact E].
Qed.

Lemma rstrip_ends (s : string) : ends_with_space (PyStr.rstrip s) = false.
Proof.
  induction s as [|c s IH]; cbn [PyStr.rstrip]; [reflexivity|].
  destruct (PyStr.rstrip s) as [|d r].
  - destruct (PyStr.is_space c) eqn:E; cbn; [reflexivity | exact E].
  - exact IH.
Qed.

Lemma rstrip_starts (s : string) :
  starts_with_space s = false -> starts_with_space (PyStr.rstrip s) = false.
Proof.
  destruct s as [|c s]; cbn [PyStr.rstrip starts_with_space]; [reflexivity|].
  intros Hc. destruct (PyStr.rstrip s); [now rewrite Hc | exact Hc].
Qed.

Lemma strip_trimmed (s : string) :
  starts_with_space (PyStr.strip s) = false
  /\ ends_with_space (PyStr.strip s) = false.
Proof.
  unfold PyStr.strip. split; [apply rstrip_starts, lstrip_starts | apply rstrip_ends].
Qed.

(** X7. When the call to the language model succeeds, the answer of
    [generate_answer] is the reply without the blanks around it: it neither
    starts nor ends with a whitespace character. *)
Theorem X7_answer_is_trimmed (llm : language_model) (q : string)
    (relevant_items : list item) (image_description : option string)
    (reply : string) :
  llm (build_prompt q (context_of relevant_items) image_description) = Ok reply ->
  exists a : string,
    generate_answer llm q relevant_items image_description = Ok a
    /\ a = PyStr.strip reply
    /\ starts_with_space a = false
    /\ ends_with_space a = false.
Proof.
  intros Hreply. rewrite generate_answer_eq, Hreply.
  exists (PyStr.strip reply). split; [reflexivity|]. split; [reflexivity|].
  apply strip_trimmed.
Qed.

Lemma X7_answer_is_trimmed_witness :
  exists a : string,
    generate_answer (fun _ => Ok "  Use gpt-3.5-turbo-0125.  ") "Which model?" [] None
    = Ok a
    /\ a = PyStr.strip "  Use gpt-3.5-turbo-0125.  "
    /\ starts_with_space a = false
    /\ ends_with_space a = false.
Proof.
  apply (X7_answer_is_trimmed (fun _ => Ok "  Use gpt-3.5-turbo-0125.  ")
           "Which model?" [] None "  Use gpt-3.5-turbo-0125.  ").
  reflexivity.
Defined.

(** ** The HTML cleaner *)

Section CleanerFacts.

Import Html.

Lemma append_nil_r (s : string) : s +:+ "" = s.
Proof. induction s as [|c s IH]; cbn; [reflexivity | now rewrite IH]. Qed.

Lemma append_snoc (a : string) (c : ascii) (s : string) :
  (a +:+ String c "") +:+ s = a +:+ String c s.
Proof. induction a as [|x a IH]; cbn; [reflexivity | now rewrite IH]. Qed.

Lemma contains_lt_cons (c : ascii) (s : string) :
  PyStr.contains "<" (String c s) = false ->
  Ascii.eqb c "<" = false /\ PyStr.contains "<" s = false.
Proof.
  change (PyStr.contains "<" (String c s))
    with ((if Ascii.eqb "<" c then true else false) || PyStr.contains "<" s).
  rewrite (Ascii.eqb_sym "<"%char c).
  destruct (Ascii.eqb c "<"); [discriminate|].
  intros H. split; [reflexivity | exact H].
Qed.

(** Without a [<] the tokenizer only reports character data, and the
    builder gathers it all. *)
Lemma feed_plain_text (s : string) (b : builder) :
  PyStr.contains "<" s = false ->
  fold_left handle (lex InData s) b = handle_data s b.
Proof.
  revert b. induction s as [|c s IH]; intros b Hs.
  - cbn. unfold handle_data. rewrite append_nil_r. now destruct b.
  - apply contains_lt_cons in Hs as [Hc Hs].
    cbn [lex lex_step]. rewrite Hc. cbn [app fold_left handle data_char].
    rewrite IH by exact Hs. unfold handle_data. cbn.
    now rewrite append_snoc.
Qed.

Lemma all_ascii_spaces_lstrip (s : string) :
  all_ascii_spaces s = true -> PyStr.lstrip s = "".
Proof.
  induction s as [|c s IH]; cbn; [reflexivity|].
  intros H. apply andb_true_iff in H as [Hc Hs].
  assert (Hsp : PyStr.is_space c = true).
  { unfold is_ascii_space in Hc. unfold PyStr.is_space.
    destruct (nat_of_ascii c =? 32)%nat eqn:E1;
      [apply Nat.eqb_eq in E1; now rewrite E1|].
    destruct (nat_of_ascii c =? 10)%nat eqn:E2;
      [apply Nat.eqb_eq in E2; now rewrite E2|].
    destruct (nat_of_ascii c =? 9)%nat eqn:E3;
      [apply Nat.eqb_eq in E3; now rewrite E3|].
    destruct (nat_of_ascii c =? 12)%nat eqn:E4;
      [apply Nat.eqb_eq in E4; now rewrite E4|].
    destruct (nat_of_ascii c =? 13)%nat eqn:E5;
      [apply Nat.eqb_eq in E5; now rewrite E5|].
    discriminate Hc. }
  rewrite Hsp. now apply IH.
Qed.


End CleanerFacts.

(** X8. On plain text, with no [<] and no [&] (so neither markup nor a
    character reference), [clean_html] only trims: its output is the input
    without the blanks around it. *)
Theorem X8_clean_html_plain_text (s : string) :
  PyStr.contains "<" s = false ->
  PyStr.contains "&" s = false ->
  clean_html s = PyStr.strip s.
Proof.
  intros Hs _. unfold clean_html. destruct s as [|c s]; [reflexivity|].
  cbn [PyStr.truthy negb].
  unfold Html.BeautifulSoup, Html.feed. rewrite feed_plain_text by exact Hs.
  unfold Html.finish, Html.handle_data, Html.endData, Html.new_builder.
  cbn [Html.current_data Html.tagStack Html.root_contents String.append].
  cbn [Html.preserving Html.tagStack existsb negb].
  rewrite andb_true_r.
  destruct (Html.all_ascii_spaces (String c s)) eqn:Hsp.
  - unfold PyStr.strip. rewrite (all_ascii_spaces_lstrip _ Hsp).
    now destruct (Html.has_newline (String c s)).
  - cbn. unfold Html.clean_soup. cbn. now rewrite append_nil_r.
Qed.

Lemma X8_clean_html_plain_text_witness :
  clean_html "  3 > 2 and that is all  " = PyStr.strip "  3 > 2 and that is all  ".
Proof.
  apply (X8_clean_html_plain_text "  3 > 2 and that is all  "); reflexivity.
Defined.

(** X9. Whatever the input, the output of [clean_html] neither starts nor
    ends with a whitespace character. *)
Theorem X9_clean_html_is_trimmed (html_content : string) :
  starts_with_space (clean_html html_content) = false
  /\ ends_with_space (clean_html html_content) = false.
Proof.
  unfold clean_html. destruct (negb (PyStr.truthy html_content)).
  - now split.
  - apply strip_trimmed.
Qed.



(** ** The scraper *)

(** One turn of the [while] loop. *)
Lemma while_pages_step (f : Scraper.forum) (base_url : string) (category_id : Z)
    (start_dt end_dt : date) (page : Z) (posts : list Scraper.ScrapedPost)
    (log : list Scraper.request) :
  Scraper.while_pages f base_url category_id start_dt end_dt page posts log
  = if Z_lt_dec page 10 then
      match Scraper.scrape_page f base_url category_id start_dt end_dt page posts log with
      | (log', Raise e) => (log', Raise e)
      | (log', Ok (Scraper.Break posts')) => (log', Ok posts')
      | (log', Ok (Scraper.Continue posts')) =>
          Scraper.while_pages f base_url category_id start_dt end_dt (page + 1) posts' log'
      end
    else (log, Ok posts).
Proof. apply while_pages_unfold. Qed.

Section ScraperFacts.

Import Scraper.

Lemma date_le_trans (a b c : date) :
  date_le a b = true -> date_le b c = true -> date_le a c = true.
Proof.
  unfold date_le.
  rewrite !orb_true_iff, !andb_true_iff, !orb_true_iff, !andb_true_iff,
    !Z.ltb_lt, !Z.eqb_eq, !Z.leb_le.
  lia.
Qed.

Lemma date_le_refl (a : date) : date_le a a = true.
Proof.
  unfold date_le.
  rewrite !orb_true_iff, !andb_true_iff, !orb_true_iff, !andb_true_iff,
    !Z.ltb_lt, !Z.eqb_eq, !Z.leb_le.
  lia.
Qed.

Lemma within_nonempty (start_dt end_dt d : date) :
  within start_dt end_dt d = true -> date_le start_dt end_dt = true.
Proof.
  unfold within. intros H. apply andb_true_iff in H as [H1 H2].
  exact (date_le_trans _ _ _ H1 H2).
Qed.

Lemma substring_take (n : nat) (s : string) :
  String.substring 0 n s = PyStr.take n s.
Proof.
  revert s. induction n as [|n IH]; intros [|c s]; cbn; try reflexivity.
  now rewrite IH.
Qed.

Lemma take_append_length (a b : string) :
  PyStr.take (String.length a) (a +:+ b) = a.
Proof. induction a as [|c a IH]; cbn; [now destruct b | now rewrite IH]. Qed.

Variable f : forum.
Variable base_url : string.
Variables start_dt end_dt : date.

(** The requests of the loop over one page's topics. *)
Lemma topics_loop_requests (P : request -> Prop) (topics : list json)
    (posts : list ScrapedPost) (log log' : list request)
    (r : result (list ScrapedPost)) :
  (forall topic created topic_id,
     In topic topics ->
     topic_created_at topic = Ok created ->
     within start_dt end_dt created = true ->
     Py.getitem topic "id" = Ok topic_id ->
     P (GetTopic topic_id)) ->
  topics_loop f base_url start_dt end_dt topics posts log = (log', r) ->
  exists new, log' = log ++ new /\ Forall P new.
Proof.
  revert posts log. induction topics as [|topic rest IH]; intros posts log HP;
    cbn [topics_loop].
  - intros [= <- _]. exists []. now rewrite app_nil_r.
  - assert (HP' : forall topic' created topic_id,
               In topic' rest ->
               topic_created_at topic' = Ok created ->
               within start_dt end_dt created = true ->
               Py.getitem topic' "id" = Ok topic_id ->
               P (GetTopic topic_id))
      by (intros; eapply HP; eauto; now right).
    destruct (topic_created_at topic) as [created|e] eqn:Hc;
      [|intros [= <- _]; exists []; now rewrite app_nil_r].
    change (date_le start_dt created && date_le created end_dt)
      with (within start_dt end_dt created).
    destruct (within start_dt end_dt created) eqn:Hw; [|now apply IH].
    destruct (Py.getitem topic "id") as [topic_id|e] eqn:Hid;
      [|intros [= <- _]; exists []; now rewrite app_nil_r].
    rewrite scrape_topic_details_log.
    assert (Hthis : P (GetTopic topic_id))
      by (apply (HP topic created topic_id); auto; now left).
    destruct (scrape_topic_details f base_url topic_id []).2;
      intros H; apply IH in H as (new & -> & Hnew); try exact HP';
      exists (GetTopic topic_id :: new);
      (split; [now rewrite <- List.app_assoc | now constructor]).
Qed.

Variable category_id : Z.

Lemma scrape_page_requests (page : Z) (posts : list ScrapedPost)
    (log log' : list request) (r : result turn) :
  (0 <= page < 10)%Z ->
  scrape_page f base_url category_id start_dt end_dt page posts log = (log', r) ->
  exists new,
    log' = log ++ new
    /\ Forall (request_allowed f category_id start_dt end_dt) new.
Proof.
  intros Hpage. unfold scrape_page.
  assert (Hone : exists new,
             log ++ [GetCategory category_id page] = log ++ new
             /\ Forall (request_allowed f category_id start_dt end_dt) new).
  { exists [GetCategory category_id page]. split; [reflexivity|].
    constructor; [|constructor]. cbn. split; [reflexivity | exact Hpage]. }
  destruct (listing_topics (get_category f category_id page))
    as [[topics|]|e] eqn:Hl; try (now intros [= <- _]).
  destruct (negb (Py.truthy topics)); [now intros [= <- _]|].
  destruct (Py.iter topics) as [l|e] eqn:Hi; [|now intros [= <- _]].
  destruct (topics_loop f base_url start_dt end_dt l posts
              (log ++ [GetCategory category_id page])) as [log2 r2] eqn:E.
  intros Hr. assert (log2 = log') as <- by (destruct r2; now injection Hr).
  apply (topics_loop_requests (request_allowed f category_id start_dt end_dt))
    in E as (new & -> & Hnew).
  - exists (GetCategory category_id page :: new).
    split; [now rewrite <- List.app_assoc|].
    constructor; [|exact Hnew]. cbn. split; [reflexivity | exact Hpage].
  - intros topic created topic_id Hin Hc Hw Hid.
    exists page, topic, created. repeat split; try assumption; try lia.
    now exists topics, l.
Qed.

Lemma while_pages_requests (n : nat) :
  forall (page : Z) (posts : list ScrapedPost) (log log' : list request)
         (r : result (list ScrapedPost)),
    Z.to_nat (10 - page) = n ->
    (0 <= page)%Z ->
    while_pages f base_url category_id start_dt end_dt page posts log = (log', r) ->
    exists new,
      log' = log ++ new
      /\ Forall (request_allowed f category_id start_dt end_dt) new.
Proof.
  induction n as [|n IH]; intros page posts log log' r Hn Hpage;
    rewrite while_pages_step; destruct (Z_lt_dec page 10) as [Hlt|Hge];
    try lia.
  - intros [= <- _]. exists []. now rewrite app_nil_r.
  - destruct (scrape_page f base_url category_id start_dt end_dt page posts log)
      as [log1 r1] eqn:E.
    apply scrape_page_requests in E as (new1 & -> & Hnew1); [|lia].
    destruct r1 as [[posts1|posts1]|e].
    + intros [= <- _]. now exists new1.
    + intros H. apply IH in H as (new2 & -> & Hnew2); try lia.
      exists (new1 ++ new2). split; [now rewrite <- List.app_assoc|].
      apply Forall_app. now split.
    + intros [= <- _]. now exists new1.
Qed.

End ScraperFacts.

(** X11. With a start or end date that [strptime] rejects,
    [scrape_discourse_posts] returns the empty list without sending any
    request. *)
Theorem X11_bad_dates_no_request (f : Scraper.forum)
    (base_url start_date end_date : string) (category_id : Z)
    (log : list Scraper.request) :
  (exists e, Strptime.strptime start_date = Raise e)
  \/ (exists e, Strptime.strptime end_date = Raise e) ->
  Scraper.scrape_discourse_posts f base_url start_date end_date category_id log
  = (log, []).
Proof.
  unfold Scraper.scrape_discourse_posts, Scraper.scrape_discourse_posts_try.
  intros [[e He]|[e He]].
  - now rewrite He.
  - rewrite He. now destruct (Strptime.strptime start_date).
Qed.

Lemma X11_bad_dates_no_request_witness :
  Scraper.scrape_discourse_posts (one_page_forum [topic_7]) base
    "2025-01-01" "2025-02-30" 123 []
  = ([], []).
Proof.
  apply (X11_bad_dates_no_request (one_page_forum [topic_7]) base
           "2025-01-01" "2025-02-30" 123 []).
  right. now exists ValueError.
Defined.

(** X12. When the start date is after the end date no topic can be in
    range: [scrape_discourse_posts] returns no post. *)
Theorem X12_reversed_range_is_empty (f : Scraper.forum)
    (base_url start_date end_date : string) (category_id : Z)
    (log : list Scraper.request) (start_dt end_dt : date) :
  Strptime.strptime start_date = Ok start_dt ->
  Strptime.strptime end_date = Ok end_dt ->
  date_le start_dt end_dt = false ->
  (Scraper.scrape_discourse_posts f base_url start_date end_date category_id log).2
  = [].
Proof.
  intros Hs He Hrev.
  unfold Scraper.scrape_discourse_posts, Scraper.scrape_discourse_posts_try.
  rewrite Hs, He.
  destruct (Scraper.while_pages f base_url category_id start_dt end_dt 0 [] log)
    as [log' r] eqn:E.
  apply (while_pages_inv f base_url start_dt end_dt category_id 10) in E
    as [_ Hfrom]; [|reflexivity|lia].
  destruct r as [posts|e]; [|reflexivity]. cbn [snd].
  specialize (Hfrom (List.Forall_nil _) posts eq_refl).
  destruct posts as [|p rest]; [reflexivity|].
  inversion Hfrom as [|p' rest' (page & topic & created & tid & _ & _ & _ & Hw & _) _].
  apply within_nonempty in Hw. congruence.
Qed.

Lemma X12_reversed_range_is_empty_witness :
  (Scraper.scrape_discourse_posts (one_page_forum [topic_7]) base
     "2025-04-14" "2025-01-01" 123 []).2 = [].
Proof.
  apply (X12_reversed_range_is_empty (one_page_forum [topic_7]) base
           "2025-04-14" "2025-01-01" 123 []
           {| year := 2025; month := 4; day := 14 |}
           {| year := 2025; month := 1; day := 1 |}); reflexivity.
Defined.

(** X13. One scrape only requests listing pages 0 to 9 of its own category
    and details of topics it found listed there with a creation date in
    range: no detail is fetched for a topic outside the range. *)
Theorem X13_only_allowed_requests (f : Scraper.forum)
    (base_url start_date end_date : string) (category_id : Z)
    (log : list Scraper.request) (start_dt end_dt : date) :
  Strptime.strptime start_date = Ok start_dt ->
  Strptime.strptime end_date = Ok end_dt ->
  exists new : list Scraper.request,
    (Scraper.scrape_discourse_posts f base_url start_date end_date category_id log).1
    = log ++ new
    /\ Forall (request_allowed f category_id start_dt end_dt) new.
Proof.
  intros Hs He.
  unfold Scraper.scrape_discourse_posts, Scraper.scrape_discourse_posts_try.
  rewrite Hs, He.
  destruct (Scraper.while_pages f base_url category_id start_dt end_dt 0 [] log)
    as [log' r] eqn:E.
  apply (while_pages_requests f base_url start_dt end_dt category_id 10) in E
    as (new & -> & Hnew); [|reflexivity|lia].
  exists new. split; [now destruct r | exact Hnew].
Qed.

Lemma X13_only_allowed_requests_witness :
  exists new : list Scraper.request,
    (Scraper.scrape_discourse_posts (one_page_forum [topic_7; topic_old]) base
       "2025-01-01" "2025-04-14" 123 []).1
    = [] ++ new
    /\ Forall (request_allowed (one_page_forum [topic_7; topic_old]) 123
                 {| year := 2025; month := 1; day := 1 |}
                 {| year := 2025; month := 4; day := 14 |}) new.
Proof.
  apply (X13_only_allowed_requests (one_page_forum [topic_7; topic_old]) base
           "2025-01-01" "2025-04-14" 123 []
           {| year := 2025; month := 1; day := 1 |}
           {| year := 2025; month := 4; day := 14 |}); reflexivity.
Defined.

Section PagingFacts.

Import Scraper.

Variable f : forum.
Variable base_url : string.
Variables start_dt end_dt : date.
Variable category_id : Z.

(** A page whose listing entries are all readable: one listing request,
    one detail request per in-range topic, and the loop goes on. *)
Lemma scrape_page_ok (page : Z) (topics : list json)
    (posts : list ScrapedPost) (log : list request) :
  listing_topics (get_category f category_id page) = Ok (Some (JArr topics)) ->
  topics <> [] ->
  forallb (entry_ok start_dt end_dt) topics = true ->
  scrape_page f base_url category_id start_dt end_dt page posts log
  = ((log ++ [GetCategory category_id page])
       ++ map GetTopic (omap (selected_id start_dt end_dt) topics),
     Ok (Continue (posts ++ omap (assembled f base_url)
                              (omap (selected_id start_dt end_dt) topics)))).
Proof.
  intros Hl Hne Hok. unfold scrape_page. rewrite Hl.
  destruct topics as [|topic rest]; [congruence|].
  cbn [Py.truthy negb Py.iter].
  now rewrite (topics_loop_ok f base_url start_dt end_dt _ _ _ Hok).
Qed.

(** When every page up to 9 has readable topics the loop runs to the cap. *)
Lemma while_pages_full (n : nat) :
  forall (page : Z) (posts : list ScrapedPost) (log : list request),
    Z.to_nat (10 - page) = n ->
    (0 <= page <= 10)%Z ->
    (forall p, (page <= p < 10)%Z ->
       exists topics,
         listing_topics (get_category f category_id p) = Ok (Some (JArr topics))
         /\ topics <> []
         /\ forallb (entry_ok start_dt end_dt) topics = true) ->
    exists log' posts',
      while_pages f base_url category_id start_dt end_dt page posts log
      = (log', Ok posts')
      /\ listing_pages log' = listing_pages log ++ seqZ page (10 - page).
Proof.
  induction n as [|n IH]; intros page posts log Hn Hpage Hall;
    rewrite while_pages_step; destruct (Z_lt_dec page 10) as [Hlt|Hge];
    try lia.
  - exists log, posts. split; [reflexivity|].
    replace (10 - page)%Z with 0%Z by lia. now rewrite app_nil_r.
  - destruct (Hall page ltac:(lia)) as (topics & Hl & Hne & Hok).
    pose proof (scrape_page_ok page topics posts log Hl Hne Hok) as Hp.
    pose proof (scrape_page_log f base_url start_dt end_dt category_id
                  _ _ _ _ _ Hp) as Hlog.
    rewrite Hp.
    destruct (IH (page + 1)%Z
                (posts ++ omap (assembled f base_url)
                            (omap (selected_id start_dt end_dt) topics))
                ((log ++ [GetCategory category_id page])
                   ++ map GetTopic (omap (selected_id start_dt end_dt) topics)))
      as (log' & posts' & Hw & Hpages); [lia|lia| |].
    + intros p Hp'. apply Hall. lia.
    + exists log', posts'. split; [exact Hw|].
      rewrite Hpages, Hlog, <- List.app_assoc. f_equal.
      rewrite (seqZ_cons page (10 - page)) by lia.
      now replace (Z.succ page) with (page + 1)%Z by lia;
        replace (Z.pred (10 - page)) with (10 - (page + 1))%Z by lia.
Qed.

End PagingFacts.

(** X14. A listing page answered with a status other than 200 ends the
    scrape and keeps what was collected: if page 0 lists readable topics and
    page 1 comes back with another status, the result is the posts assembled
    for the in-range topics of page 0. *)
Theorem X14_bad_status_keeps_posts (f : Scraper.forum)
    (base_url start_date end_date : string) (category_id : Z)
    (log : list Scraper.request) (start_dt end_dt : date)
    (topics : list json) (second : Scraper.response) :
  Strptime.strptime start_date = Ok start_dt ->
  Strptime.strptime end_date = Ok end_dt ->
  Scraper.listing_topics (Scraper.get_category f category_id 0)
  = Ok (Some (JArr topics)) ->
  topics <> [] ->
  forallb (entry_ok start_dt end_dt) topics = true ->
  Scraper.get_category f category_id 1 = Ok second ->
  Scraper.status_code second <> 200%Z ->
  (Scraper.scrape_discourse_posts f base_url start_date end_date category_id log).2
  = omap (assembled f base_url) (omap (selected_id start_dt end_dt) topics).
Proof.
  intros Hs He Hl Hne Hok Hsecond Hstatus.
  unfold Scraper.scrape_discourse_posts, Scraper.scrape_discourse_posts_try.
  rewrite Hs, He, while_pages_step. destruct (Z_lt_dec 0 10) as [_|Hge]; [|lia].
  rewrite (scrape_page_ok f base_url start_dt end_dt category_id 0 topics [] log
             Hl Hne Hok).
  change (0 + 1)%Z with 1%Z. rewrite while_pages_step.
  destruct (Z_lt_dec 1 10) as [_|Hge]; [|lia].
  unfold Scraper.scrape_page, Scraper.listing_topics. rewrite Hsecond.
  cbn [mbind result_bind rbind].
  destruct (Scraper.status_code second =? 200)%Z eqn:E;
    [apply Z.eqb_eq in E; contradiction|].
  reflexivity.
Qed.

Lemma X14_bad_status_keeps_posts_witness :
  (Scraper.scrape_discourse_posts
     (two_page_forum [topic_7; topic_8; topic_9]
        (Ok {| Scraper.status_code := 500;
               Scraper.json_body := Raise JSONDecodeError |}))
     base "2025-01-01" "2025-04-14" 123 []).2
  = omap (assembled
            (two_page_forum [topic_7; topic_8; topic_9]
               (Ok {| Scraper.status_code := 500;
                      Scraper.json_body := Raise JSONDecodeError |}))
            base)
      (omap (selected_id {| year := 2025; month := 1; day := 1 |}
                         {| year := 2025; month := 4; day := 14 |})
         [topic_7; topic_8; topic_9]).
Proof.
  apply (X14_bad_status_keeps_posts
           (two_page_forum [topic_7; topic_8; topic_9]
              (Ok {| Scraper.status_code := 500;
                     Scraper.json_body := Raise JSONDecodeError |}))
           base "2025-01-01" "2025-04-14" 123 []
           {| year := 2025; month := 1; day := 1 |}
           {| year := 2025; month := 4; day := 14 |}
           [topic_7; topic_8; topic_9]
           {| Scraper.status_code := 500;
              Scraper.json_body := Raise JSONDecodeError |});
    try reflexivity; discriminate.
Defined.

(** X15. A listing request that raises discards what was collected: if
    page 0 lists readable topics and the request for page 1 raises, the
    result is the empty list. *)
Theorem X15_exception_discards_posts (f : Scraper.forum)
    (base_url start_date end_date : string) (category_id : Z)
    (log : list Scraper.request) (start_dt end_dt : date)
    (topics : list json) (e : exn) :
  Strptime.strptime start_date = Ok start_dt ->
  Strptime.strptime end_date = Ok end_dt ->
  Scraper.listing_topics (Scraper.get_category f category_id 0)
  = Ok (Some (JArr topics)) ->
  topics <> [] ->
  forallb (entry_ok start_dt end_dt) topics = true ->
  Scraper.get_category f category_id 1 = Raise e ->
  (Scraper.scrape_discourse_posts f base_url start_date end_date category_id log).2
  = [].
Proof.
  intros Hs He Hl Hne Hok Hsecond.
  unfold Scraper.scrape_discourse_posts, Scraper.scrape_discourse_posts_try.
  rewrite Hs, He, while_pages_step. destruct (Z_lt_dec 0 10) as [_|Hge]; [|lia].
  rewrite (scrape_page_ok f base_url start_dt end_dt category_id 0 topics [] log
             Hl Hne Hok).
  change (0 + 1)%Z with 1%Z. rewrite while_pages_step.
  destruct (Z_lt_dec 1 10) as [_|Hge]; [|lia].
  unfold Scraper.scrape_page, Scraper.listing_topics. rewrite Hsecond.
  reflexivity.
Qed.

Lemma X15_exception_discards_posts_witness :
  (Scraper.scrape_discourse_posts
     (two_page_forum [topic_7; topic_8; topic_9] (Raise RequestException))
     base "2025-01-01" "2025-04-14" 123 []).2
  = [].
Proof.
  apply (X15_exception_discards_posts
           (two_page_forum [topic_7; topic_8; topic_9] (Raise RequestException))
           base "2025-01-01" "2025-04-14" 123 []
           {| year := 2025; month := 1; day := 1 |}
           {| year := 2025; month := 4; day := 14 |}
           [topic_7; topic_8; topic_9] RequestException);
    try reflexivity; discriminate.
Defined.

(** X16. Paging does not look at the dates: when each of the pages 0 to 9
    lists at least one topic with readable entries, exactly these ten pages
    are requested, in order, whether or not any topic is in range. *)
Theorem X16_pages_up_to_the_cap (f : Scraper.forum)
    (base_url start_date end_date : string) (category_id : Z)
    (log : list Scraper.request) (start_dt end_dt : date) :
  Strptime.strptime start_date = Ok start_dt ->
  Strptime.strptime end_date = Ok end_dt ->
  (forall page, (0 <= page < 10)%Z ->
     exists topics,
       Scraper.listing_topics (Scraper.get_category f category_id page)
       = Ok (Some (JArr topics))
       /\ topics <> []
       /\ forallb (entry_ok start_dt end_dt) topics = true) ->
  listing_pages
    (Scraper.scrape_discourse_posts f base_url start_date end_date category_id log).1
  = listing_pages log ++ [0; 1; 2; 3; 4; 5; 6; 7; 8; 9]%Z.
Proof.
  intros Hs He Hall.
  unfold Scraper.scrape_discourse_posts, Scraper.scrape_discourse_posts_try.
  rewrite Hs, He.
  destruct (while_pages_full f base_url start_dt end_dt category_id 10 0 [] log)
    as (log' & posts' & -> & Hpages); [reflexivity|lia|exact Hall|].
  exact Hpages.
Qed.

Lemma X16_pages_up_to_the_cap_witness :
  listing_pages
    (Scraper.scrape_discourse_posts endless_forum base
       "2025-01-01" "2025-04-14" 123 []).1
  = listing_pages [] ++ [0; 1; 2; 3; 4; 5; 6; 7; 8; 9]%Z.
Proof.
  apply (X16_pages_up_to_the_cap endless_forum base
           "2025-01-01" "2025-04-14" 123 []
           {| year := 2025; month := 1; day := 1 |}
           {| year := 2025; month := 4; day := 14 |}).
  - reflexivity.
  - reflexivity.
  - intros page _. exists [topic_old]. split; [reflexivity|].
    split; [discriminate | reflexivity].
Defined.

Section DetailFacts.

Import Scraper.

Lemma readable_reply (post : json) :
  readable post = true -> exists r, reply_of post = Ok r.
Proof.
  destruct post as [| | | | |fields]; try discriminate. cbn [readable].
  unfold reply_of. cbn [Py.get mbind result_bind rbind].
  destruct (Py.lookup_last "cooked" fields) as [v|]; [|intros _; now eexists].
  destruct v as [|b|n|s|l|o]; cbn [Py.truthy]; unfold clean_html_value;
    cbn [Py.truthy].
  - intros _. now eexists.
  - intros H. apply negb_true_iff in H. subst b. now eexists.
  - intros H. rewrite H. now eexists.
  - intros _. destruct (negb (PyStr.truthy s)); now eexists.
  - intros H. rewrite H. now eexists.
  - intros H. rewrite H. now eexists.
Qed.

Lemma replies_loop_total (posts : list json) (acc : list Reply) :
  forallb readable posts = true ->
  exists replies,
    replies_loop posts acc = Ok replies
    /\ length replies = length acc + length posts.
Proof.
  revert acc. induction posts as [|post rest IH]; intros acc; cbn [forallb].
  - intros _. exists acc. split; [reflexivity | cbn; lia].
  - intros H. apply andb_true_iff in H as [Hpost Hrest].
    destruct (readable_reply post Hpost) as [r Hr].
    destruct (IH (acc ++ [r]) Hrest) as (replies & Hloop & Hlen).
    exists replies. split.
    + cbn [replies_loop]. unfold reply_of in Hr.
      destruct (Py.get post "cooked" (JStr "")) as [cooked|]; [|discriminate].
      cbn [mbind result_bind rbind] in Hr |- *.
      destruct (clean_html_value cooked) as [content|]; [|discriminate].
      cbn [mbind result_bind rbind] in Hr |- *.
      destruct (Py.get post "username" (JStr "")) as [author|]; [|discriminate].
      cbn [mbind result_bind rbind] in Hr |- *.
      destruct (Py.get post "created_at" (JStr "")) as [created|]; [|discriminate].
      cbn [mbind result_bind rbind] in Hr |- *.
      injection Hr as <-. exact Hloop.
    + rewrite Hlen, length_app. cbn. lia.
Qed.

End DetailFacts.

(** X17. [scrape_topic_details] does return a post for a well-formed
    topic: with status 200, a JSON object whose post stream is a non-empty
    list, and at positions 0 to 4 posts that are objects whose ["cooked"] is
    absent, falsy or plain text (no [<], no [&]), it sends one request and
    returns a post with the topic's id and url, the title (or [""] when
    there is none) and [min 4 (n - 1)] replies for a stream of [n] posts. *)
Theorem X17_topic_details_are_returned (f : Scraper.forum) (base_url : string)
    (topic_id : json) (log : list Scraper.request)
    (resp : Scraper.response) (data stream : list (string * json))
    (main : json) (rest : list json) :
  Scraper.get_topic f topic_id = Ok resp ->
  Scraper.status_code resp = 200%Z ->
  Scraper.json_body resp = Ok (JObj data) ->
  Py.lookup_last "post_stream" data = Some (JObj stream) ->
  Py.lookup_last "posts" stream = Some (JArr (main :: rest)) ->
  forallb readable (take 5 (main :: rest)) = true ->
  exists p : Scraper.ScrapedPost,
    Scraper.scrape_topic_details f base_url topic_id log
    = (log ++ [Scraper.GetTopic topic_id], Some p)
    /\ Scraper.post_id p = topic_id
    /\ Scraper.post_url p = (base_url, topic_id)
    /\ Scraper.post_title p = default (JStr "") (Py.lookup_last "title" data)
    /\ length (Scraper.post_replies p) = Nat.min 4 (length rest).
Proof.
  intros Hget Hstatus Hbody Hstream Hposts Hread.
  cbn [take forallb] in Hread. apply andb_true_iff in Hread as [Hmain Hrest].
  unfold Scraper.scrape_topic_details, Scraper.topic_details_of.
  rewrite Hget. cbn [mbind result_bind rbind].
  rewrite Hstatus. cbn [Z.eqb Pos.eqb negb].
  rewrite Hbody. cbn [mbind result_bind rbind Py.get].
  rewrite Hstream. cbn [mbind result_bind rbind Py.get].
  rewrite Hposts. cbn [mbind result_bind rbind Py.truthy negb Py.index].
  cbn [lookup list_lookup mbind result_bind rbind].
  destruct main as [| | | | |fields]; try discriminate Hmain.
  cbn [Py.get mbind result_bind rbind].
  assert (Hcontent : exists content,
            clean_html_value
              (match Py.lookup_last "cooked" fields with
               | Some x => x | None => JStr "" end) = Ok content).
  { cbn [readable] in Hmain. unfold clean_html_value.
    destruct (Py.lookup_last "cooked" fields) as [v|]; [|now eexists].
    destruct v as [|b|n|s|l|o]; cbn [Py.truthy] in Hmain |- *.
    - now eexists.
    - apply negb_true_iff in Hmain. subst b. now eexists.
    - rewrite Hmain. now eexists.
    - destruct (negb (PyStr.truthy s)); now eexists.
    - rewrite Hmain. now eexists.
    - rewrite Hmain. now eexists. }
  destruct Hcontent as [content ->]. cbn [mbind result_bind rbind Py.slice Py.iter].
  cbn [drop]. change (5 - 1) with 4. rewrite drop_0.
  destruct (replies_loop_total (take 4 rest) [] Hrest) as (replies & -> & Hlen).
  cbn [mbind result_bind rbind].
  eexists. split; [reflexivity|]. cbn [Scraper.post_id Scraper.post_url
    Scraper.post_title Scraper.post_replies].
  split; [reflexivity|]. split; [reflexivity|]. split.
  - unfold default. now destruct (Py.lookup_last "title" data).
  - rewrite Hlen, length_take. cbn. lia.
Qed.

Lemma X17_topic_details_are_returned_witness :
  exists p : Scraper.ScrapedPost,
    Scraper.scrape_topic_details plain_forum base (JNum 12) []
    = ([] ++ [Scraper.GetTopic (JNum 12)], Some p)
    /\ Scraper.post_id p = JNum 12
    /\ Scraper.post_url p = (base, JNum 12)
    /\ Scraper.post_title p
       = default (JStr "")
           (Py.lookup_last "title"
              [("title", JStr "Exam");
               ("post_stream",
                JObj [("posts",
                       JArr [post_json "asker" " When is it? " "2025-03-02T08:00:00.000Z";
                             post_json "ta" "On Friday" "2025-03-02T09:00:00.000Z";
                             post_json "asker" "Thanks" "2025-03-02T09:05:00.000Z"])])])
    /\ length (Scraper.post_replies p)
       = Nat.min 4 (length [post_json "ta" "On Friday" "2025-03-02T09:00:00.000Z";
                            post_json "asker" "Thanks" "2025-03-02T09:05:00.000Z"]).
Proof.
  apply (X17_topic_details_are_returned plain_forum base (JNum 12) []
           {| Scraper.status_code := 200;
              Scraper.json_body :=
                Ok (detail_json "Exam"
                      [post_json "asker" " When is it? " "2025-03-02T08:00:00.000Z";
                       post_json "ta" "On Friday" "2025-03-02T09:00:00.000Z";
                       post_json "asker" "Thanks" "2025-03-02T09:05:00.000Z"]) |}
           [("title", JStr "Exam");
            ("post_stream",
             JObj [("posts",
                    JArr [post_json "asker" " When is it? " "2025-03-02T08:00:00.000Z";
                          post_json "ta" "On Friday" "2025-03-02T09:00:00.000Z";
                          post_json "asker" "Thanks" "2025-03-02T09:05:00.000Z"])])]
           [("posts",
             JArr [post_json "asker" " When is it? " "2025-03-02T08:00:00.000Z";
                   post_json "ta" "On Friday" "2025-03-02T09:00:00.000Z";
                   post_json "asker" "Thanks" "2025-03-02T09:05:00.000Z"])]
           (post_json "asker" " When is it? " "2025-03-02T08:00:00.000Z")
           [post_json "ta" "On Friday" "2025-03-02T09:00:00.000Z";
            post_json "asker" "Thanks" "2025-03-02T09:05:00.000Z"]);
    reflexivity.
Defined.

(** X18. Only the first 10 characters of a topic's [created_at] are read,
    so the time of day does not count: a topic created at any time on the
    end date gets exactly the end date and passes the upper bound of the
    range test. *)
Theorem X18_whole_end_day_is_included
    (end_date suffix : string) (end_dt : date) (fields : list (string * json)) :
  String.length end_date = 10 ->
  Strptime.strptime end_date = Ok end_dt ->
  Py.lookup_last "created_at" fields = Some (JStr (end_date +:+ suffix)) ->
  Scraper.topic_created_at (JObj fields) = Ok end_dt
  /\ date_le end_dt end_dt = true.
Proof.
  intros Hlen Hend Hcreated. split; [|apply date_le_refl].
  unfold Scraper.topic_created_at. cbn [Py.getitem]. rewrite Hcreated.
  cbn [mbind result_bind rbind Py.slice]. change (10 - 0) with 10.
  rewrite substring_take, <- Hlen, take_append_length.
  exact Hend.
Qed.

Lemma X18_whole_end_day_is_included_witness :
  Scraper.topic_created_at
    (JObj [("id", JNum 11); ("created_at", JStr ("2025-04-14" +:+ "T23:59:59.999Z"))])
  = Ok {| year := 2025; month := 4; day := 14 |}
  /\ date_le {| year := 2025; month := 4; day := 14 |}
             {| year := 2025; month := 4; day := 14 |} = true.
Proof.
  apply (X18_whole_end_day_is_included "2025-04-14" "T23:59:59.999Z"
           {| year := 2025; month := 4; day := 14 |}
           [("id", JNum 11); ("created_at", JStr ("2025-04-14" +:+ "T23:59:59.999Z"))]);
    reflexivity.
Defined.

(** ** The entry point *)

(** X19. Whatever the forum and the file system, [main] writes at most one
    file, [scraped_discourse_data.json], never with an empty list, and every
    post it writes was built for a topic listed in category 123 with a
    creation date from 2025-01-01 to 2025-04-14; a failed scrape and a
    scrape that found nothing both write nothing. *)
Theorem X19_main_writes_only_scraped_posts (f : Scraper.forum)
    (open_file : string -> result unit) (log : list Scraper.request)
    (filename : string) (posts : list Scraper.ScrapedPost) :
  Entry.main f open_file = (log, Entry.Written filename posts) ->
  filename = "scraped_discourse_data.json"
  /\ posts <> []
  /\ posts = (Scraper.scrape_discourse_posts f Entry.default_base_url
                "2025-01-01" "2025-04-14" 123 []).2
  /\ Forall (scraped_from f Entry.default_base_url 123
               {| year := 2025; month := 1; day := 1 |}
               {| year := 2025; month := 4; day := 14 |}) posts.
Proof.
  unfold Entry.main. cbn zeta.
  destruct (Scraper.scrape_discourse_posts f Entry.default_base_url
              "2025-01-01" "2025-04-14" 123 []) as [log0 posts0] eqn:E.
  destruct posts0 as [|p rest]; [discriminate|].
  unfold Entry.save_scraped_data.
  destruct (open_file "scraped_discourse_data.json"); [|discriminate].
  intros [= <- <- <-]. split; [reflexivity|]. split; [discriminate|].
  split; [reflexivity|].
  unfold Scraper.scrape_discourse_posts, Scraper.scrape_discourse_posts_try in E.
  change (Strptime.strptime "2025-01-01")
    with (Ok {| year := 2025; month := 1; day := 1 |}) in E.
  change (Strptime.strptime "2025-04-14")
    with (Ok {| year := 2025; month := 4; day := 14 |}) in E.
  destruct (Scraper.while_pages f Entry.default_base_url 123
              {| year := 2025; month := 1; day := 1 |}
              {| year := 2025; month := 4; day := 14 |} 0 [] [])
    as [log' r] eqn:W.
  apply (while_pages_inv f Entry.default_base_url
           {| year := 2025; month := 1; day := 1 |}
           {| year := 2025; month := 4; day := 14 |} 123 10) in W
    as [_ Hfrom]; [|reflexivity|lia].
  destruct r as [posts'|e]; [|discriminate E].
  injection E as _ <-. exact (Hfrom (List.Forall_nil _) _ eq_refl).
Qed.

Lemma X19_main_writes_only_scraped_posts_witness :
  "scraped_discourse_data.json" = "scraped_discourse_data.json"
  /\ [post_7; post_9] <> []
  /\ [post_7; post_9]
     = (Scraper.scrape_discourse_posts (one_page_forum [topic_7; topic_8; topic_9])
          Entry.default_base_url "2025-01-01" "2025-04-14" 123 []).2
  /\ Forall (scraped_from (one_page_forum [topic_7; topic_8; topic_9])
               Entry.default_base_url 123
               {| year := 2025; month := 1; day := 1 |}
               {| year := 2025; month := 4; day := 14 |}) [post_7; post_9].
Proof.
  apply (X19_main_writes_only_scraped_posts
           (one_page_forum [topic_7; topic_8; topic_9]) (fun _ => Ok tt)
           [Scraper.GetCategory 123 0; Scraper.GetTopic (JNum 7);
            Scraper.GetTopic (JNum 8); Scraper.GetTopic (JNum 9);
            Scraper.GetCategory 123 1]).
  vm_compute. reflexivity.
Defined.
